(** * Fault injection (package [faults]): the decision engine [InjectFault]

    A shallow embedding of [InjectFault], [isSelected] and
    [randSingleton.getRandInt], together with the Go library functions they
    call ([strconv.Atoi], [strings.TrimSuffix], [fmt.Sprintf] for the verbs
    used, [time.Duration] arithmetic), and of the thrift server middlewares
    of package [thriftbp] that decide something themselves
    ([ExtractDeadlineBudget], [AbandonCanceledRequests], [recoverPanik],
    [PrometheusServerMiddleware], [InjectEdgeContext]).

    Conventions.
    - Go's [int] and [time.Duration] are 64-bit two's complement integers,
      embedded in [Z]; arithmetic that can overflow is wrapped by [wrap64].
    - A [*int] is [option nat]: [None] is the nil pointer, [Some l] points to
      the cell [l] of the heap.
    - Effects are explicit: a computation maps the store to an outcome (a
      value, or a run-time panic), the new store and the list of events it
      produced, in order.  Callbacks ([GetHeaderFn], [ResumeFn],
      [ResponseFn], the sleep function) are taken to be non-nil, to return
      normally and to leave the store alone; each call is recorded as an
      event. *)

From Stdlib Require Import ZArith List String Ascii Bool Lia.
From Stdlib Require Import DecimalString.
Import ListNotations.

Local Open Scope string_scope.
Local Open Scope Z_scope.

(** ** The Go library functions used by the package *)

Module Go.

Definition minInt : Z := - 2 ^ 63.
Definition maxInt : Z := 2 ^ 63 - 1.

(** Conversion of a mathematical integer to a 64-bit signed integer. *)
Definition wrap64 (z : Z) : Z := (z + 2 ^ 63) mod 2 ^ 64 - 2 ^ 63.

(** [time.Millisecond], in nanoseconds. *)
Definition Millisecond : Z := 1000000.

(** [time.Duration(n) * time.Millisecond]. *)
Definition DurationMs (n : Z) : Z := wrap64 (n * Millisecond).

(** [strconv.NumError.Err]. *)
Inductive NumError := ErrSyntax | ErrRange.

Definition digit (c : ascii) : option Z :=
  let n := Z.of_N (N_of_ascii c) in
  if (48 <=? n) && (n <=? 57) then Some (n - 48) else None.

Fixpoint digits (s : string) (acc : Z) : option Z :=
  match s with
  | EmptyString => Some acc
  | String c s' =>
      match digit c with
      | Some d => digits s' (acc * 10 + d)
      | None => None
      end
  end.

(** [strconv.Atoi]: an optional sign followed by one or more decimal
    digits; a value that does not fit [int] is a range error, reported
    with the nearest bound. *)
Definition Atoi (s : string) : Z * option NumError :=
  let body :=
    match s with
    | String "-" r => r
    | String "+" r => r
    | _ => s
    end in
  let neg := match s with String "-" _ => true | _ => false end in
  match body with
  | EmptyString => (0, Some ErrSyntax)
  | _ =>
      match digits body 0 with
      | None => (0, Some ErrSyntax)
      | Some n =>
          let v := if neg then - n else n in
          if v <? minInt then (minInt, Some ErrRange)
          else if maxInt <? v then (maxInt, Some ErrRange)
          else (v, None)
      end
  end.

(** [strings.HasSuffix] and [strings.TrimSuffix]. *)
Definition HasSuffix (s suffix : string) : bool :=
  (Nat.leb (length suffix) (length s)) &&
  (substring (length s - length suffix) (length suffix) s =? suffix)%string.

Definition TrimSuffix (s suffix : string) : string :=
  if HasSuffix s suffix
  then substring 0 (length s - length suffix) s
  else s.

(** The [%d] verb of [fmt.Sprintf]. *)
Definition Itoa (z : Z) : string := NilZero.string_of_int (Z.to_int z).

End Go.

(** ** The header matcher (file [headers.go])

    Only the tests of the matcher are at hand ([headers_test.go]); its
    functions are modelled from the specification, and from the tests where
    the specification is silent. *)

Module Headers.

(** Modelled from the spec: the record [FaultDirective] of section 3
    (the tests call it [faultConfiguration]); its declaration is missing. *)
Record FaultDirective := mkDirective {
  ServerAddress : string;
  ServerMethod : string;
  DelayMs : Z;
  DelayPercentage : Z;
  AbortCode : Z;
  AbortMessage : string;
  AbortPercentage : Z
}.

(** Modelled from the spec: the error taxonomy of section 7; the error
    types are missing. *)
Inductive ParseError :=
| MalformedPair (text : string)
| UnknownKey (key : string)
| InvalidIntegerFormat (value : string)
| PercentageOutOfRange (percentage : Z)
| AbortCodeOutOfRange (code lo hi : Z).

(** Modelled from the spec: the defaults of section 3 (delay 0, both
    percentages 100, abort code -1), before any pair is read. *)
Definition defaultDirective : FaultDirective :=
  mkDirective "" "" 0 100 (-1) "" 100.

(** Modelled from the spec: splitting at a one-character separator, as the
    grammar of section 4.1 needs it (always at least one piece). *)
Fixpoint splitOn (sep : ascii) (s : string) : list string :=
  match s with
  | EmptyString => [EmptyString]
  | String c s' =>
      if Ascii.eqb c sep then EmptyString :: splitOn sep s'
      else
        match splitOn sep s' with
        | h :: t => String c h :: t
        | [] => [String c EmptyString]
        end
  end.

(** Modelled from the spec: a pair is [key=value]; the text is cut at its
    first [=], and [None] is a pair without one. *)
Fixpoint cut (sep : ascii) (s : string) : option (string * string) :=
  match s with
  | EmptyString => None
  | String c s' =>
      if Ascii.eqb c sep then Some (EmptyString, s')
      else
        match cut sep s' with
        | Some (k, v) => Some (String c k, v)
        | None => None
        end
  end.

(** Modelled from the spec: white space for the trimming of section 4.1. *)
Definition isSpace (c : ascii) : bool :=
  let n := N_of_ascii c in
  (N.eqb n 32 || (N.leb 9 n && N.leb n 13))%bool.

(** Modelled from the spec: trimming on the left. *)
Fixpoint trimLeft (s : string) : string :=
  match s with
  | String c s' => if isSpace c then trimLeft s' else s
  | EmptyString => EmptyString
  end.

(** Modelled from the spec: trimming on the right. *)
Fixpoint trimRight (s : string) : string :=
  match s with
  | EmptyString => EmptyString
  | String c s' =>
      match trimRight s' with
      | EmptyString => if isSpace c then EmptyString
                       else String c EmptyString
      | r => String c r
      end
  end.

(** Modelled from the spec: white space around a directive is trimmed. *)
Definition TrimSpace (s : string) : string := trimRight (trimLeft s).

(** Modelled from the spec: a percentage is an integer of [0,100], default
    100 (this is [parsePercentage] of the tests). *)
Definition parsePercentage (s : string) : Z + ParseError :=
  if (s =? "")%string then inl 100
  else
    match Go.Atoi s with
    | (_, Some _) => inr (InvalidIntegerFormat s)
    | (p, None) =>
        if (p <? 0) || (100 <? p) then inr (PercentageOutOfRange p)
        else inl p
    end.

(** Modelled from the spec: one pair of a directive, by its key of the wire
    encoding of section 6; the result is the updated directive or the error
    of this token. *)
Definition applyPair (abortCodeMin abortCodeMax : Z)
    (d : FaultDirective) (kv : string) : FaultDirective + ParseError :=
  match cut "=" kv with
  | None => inr (MalformedPair kv)
  | Some (key, value) =>
      if (key =? "a")%string then
        inl (mkDirective value (ServerMethod d) (DelayMs d)
               (DelayPercentage d) (AbortCode d) (AbortMessage d)
               (AbortPercentage d))
      else if (key =? "m")%string then
        inl (mkDirective (ServerAddress d) value (DelayMs d)
               (DelayPercentage d) (AbortCode d) (AbortMessage d)
               (AbortPercentage d))
      else if (key =? "d")%string then
        match Go.Atoi value with
        | (_, Some _) => inr (InvalidIntegerFormat value)
        | (n, None) =>
            inl (mkDirective (ServerAddress d) (ServerMethod d) n
                   (DelayPercentage d) (AbortCode d) (AbortMessage d)
                   (AbortPercentage d))
        end
      else if (key =? "D")%string then
        match parsePercentage value with
        | inr e => inr e
        | inl p =>
            inl (mkDirective (ServerAddress d) (ServerMethod d) (DelayMs d)
                   p (AbortCode d) (AbortMessage d) (AbortPercentage d))
        end
      else if (key =? "f")%string then
        match Go.Atoi value with
        | (_, Some _) => inr (InvalidIntegerFormat value)
        | (n, None) =>
            if (n <? abortCodeMin) || (abortCodeMax <? n)
            then inr (AbortCodeOutOfRange n abortCodeMin abortCodeMax)
            else
              inl (mkDirective (ServerAddress d) (ServerMethod d) (DelayMs d)
                     (DelayPercentage d) n (AbortMessage d)
                     (AbortPercentage d))
        end
      else if (key =? "b")%string then
        inl (mkDirective (ServerAddress d) (ServerMethod d) (DelayMs d)
               (DelayPercentage d) (AbortCode d) value (AbortPercentage d))
      else if (key =? "F")%string then
        match parsePercentage value with
        | inr e => inr e
        | inl p =>
            inl (mkDirective (ServerAddress d) (ServerMethod d) (DelayMs d)
                   (DelayPercentage d) (AbortCode d) (AbortMessage d) p)
        end
      else inr (UnknownKey key)
  end.

(** Modelled from the spec: the pairs of one directive, left to right; a
    bad token is reported and the remaining pairs are still read. *)
Fixpoint applyPairs (abortCodeMin abortCodeMax : Z) (kvs : list string)
    (d : FaultDirective) : FaultDirective * list ParseError :=
  match kvs with
  | [] => (d, [])
  | kv :: rest =>
      match applyPair abortCodeMin abortCodeMax d kv with
      | inl d' => applyPairs abortCodeMin abortCodeMax rest d'
      | inr e =>
          let (d', es) := applyPairs abortCodeMin abortCodeMax rest d in
          (d', e :: es)
      end
  end.

(** Modelled from the spec: one directive of a header value.  An empty
    directive is nothing (test "empty"); a directive with a bad token gives
    its errors and no record (tests "invalid delay value" and the like); a
    directive without address is dropped without error. *)
Definition parseDirective (abortCodeMin abortCodeMax : Z) (text : string)
    : option FaultDirective * list ParseError :=
  if (text =? "")%string then (None, [])
  else
    match applyPairs abortCodeMin abortCodeMax (splitOn ";" text)
            defaultDirective with
    | (d, []) =>
        if (ServerAddress d =? "")%string then (None, []) else (Some d, [])
    | (_, es) => (None, es)
    end.

(** Modelled from the spec: [Parse] of section 4.1, the directives of one
    raw header value in encoding order, and the errors of its tokens. *)
Fixpoint parseDirectives (abortCodeMin abortCodeMax : Z)
    (texts : list string) : list FaultDirective * list ParseError :=
  match texts with
  | [] => ([], [])
  | text :: rest =>
      let (ds, es) := parseDirectives abortCodeMin abortCodeMax rest in
      match parseDirective abortCodeMin abortCodeMax (TrimSpace text) with
      | (Some d, es') => (d :: ds, (es' ++ es)%list)
      | (None, es') => (ds, (es' ++ es)%list)
      end
  end.

(** Modelled from the spec: [Parse] of section 4.1. *)
Definition Parse (abortCodeMin abortCodeMax : Z) (rawValue : string)
    : list FaultDirective * list ParseError :=
  parseDirectives abortCodeMin abortCodeMax (splitOn "," rawValue).

(** Modelled from the spec: the test of section 4.2 that a directive
    targets the current server and method. *)
Definition targets (canonicalAddress requestedMethod : string)
    (d : FaultDirective) : bool :=
  (ServerAddress d =? canonicalAddress)%string
  && ((ServerMethod d =? "")%string
      || (ServerMethod d =? requestedMethod)%string).

(** Modelled from the spec: the scan of the directives of one raw value;
    [found] is the match so far, which a later directive never replaces. *)
Fixpoint scan (canonicalAddress requestedMethod : string)
    (ds : list FaultDirective) (found : option FaultDirective)
    : option FaultDirective :=
  match ds with
  | [] => found
  | d :: rest =>
      match found with
      | Some _ => scan canonicalAddress requestedMethod rest found
      | None =>
          if targets canonicalAddress requestedMethod d
          then scan canonicalAddress requestedMethod rest (Some d)
          else scan canonicalAddress requestedMethod rest None
      end
  end.

(** Modelled from the spec: the loop of [Match] (section 4.2) over the raw
    values in order of occurrence, carrying the match found so far and the
    errors collected so far; parsing goes on after a match. *)
Fixpoint matchLoop (canonicalAddress requestedMethod : string)
    (abortCodeMin abortCodeMax : Z) (rawValues : list string)
    (found : option FaultDirective) (errs : list ParseError)
    : option FaultDirective * list ParseError :=
  match rawValues with
  | [] => (found, errs)
  | rawValue :: rest =>
      let (ds, es) := Parse abortCodeMin abortCodeMax rawValue in
      matchLoop canonicalAddress requestedMethod abortCodeMin abortCodeMax
        rest (scan canonicalAddress requestedMethod ds found)
        (errs ++ es)%list
  end.

(** Modelled from the spec: [Match] of section 4.2 (the tests call it
    [parseMatchingFaultConfiguration]); the function is missing. *)
Definition Match (rawValues : list string)
    (canonicalAddress requestedMethod : string)
    (abortCodeMin abortCodeMax : Z)
    : option FaultDirective * list ParseError :=
  matchLoop canonicalAddress requestedMethod abortCodeMin abortCodeMax
    rawValues None [].

End Headers.

(** ** Effects: store, events, outcomes *)

(** The sleep function called at the end of the delay phase. *)
Inductive Sleeper :=
| time_Sleep
| custom_Sleep (name : string).

Inductive Event :=
| EvGetHeader (key : string)
| EvWarn (msg : string)
| EvRandIntn (n : Z)
| EvSleep (fn : Sleeper) (d : Z)
| EvResume
| EvRespond (code : Z) (message : string).

(** The store: the heap of [int] cells and the state of the global random
    source ([rand.Intn] reads the stream [rand] at position [randPos]). *)
Record Store := mkStore {
  heap : nat -> Z;
  rand : nat -> Z;
  randPos : nat
}.

Inductive Outcome (A : Type) :=
| Ret (a : A)
| Panic (msg : string).
Arguments Ret {A} a.
Arguments Panic {A} msg.

Definition M (A : Type) : Type := Store -> Outcome A * Store * list Event.

Definition ret {A} (a : A) : M A := fun st => (Ret a, st, []).

Definition bind {A B} (m : M A) (f : A -> M B) : M B :=
  fun st =>
    match m st with
    | (Ret a, st1, t1) =>
        match f a st1 with
        | (r, st2, t2) => (r, st2, (t1 ++ t2)%list)
        end
    | (Panic msg, st1, t1) => (Panic msg, st1, t1)
    end.

Notation "x <- m ;; k" := (bind m (fun x => k))
  (at level 61, m at next level, right associativity).
Notation "' pat <- m ;; k" := (bind m (fun x => match x with pat => k end))
  (at level 61, pat pattern, m at next level, right associativity).
Notation "m ;;; k" := (bind m (fun _ => k))
  (at level 61, right associativity).

Definition emit (e : Event) : M unit := fun st => (Ret tt, st, [e]).

Definition panic {A} (msg : string) : M A := fun st => (Panic msg, st, []).

Definition nilDeref : string :=
  "runtime error: invalid memory address or nil pointer dereference".

(** [*p] as an rvalue. *)
Definition load (p : option nat) : M Z :=
  match p with
  | None => panic nilDeref
  | Some l => fun st => (Ret (heap st l), st, [])
  end.

(** [*p = v]. *)
Definition store (p : option nat) (v : Z) : M unit :=
  match p with
  | None => panic nilDeref
  | Some l =>
      fun st =>
        (Ret tt,
         mkStore (fun l' => if Nat.eqb l' l then v else heap st l')
                 (rand st) (randPos st),
         [])
  end.

(** [rand.Intn(n)] for [n > 0]. *)
Definition rand_Intn (n : Z) : M Z :=
  fun st =>
    (Ret (rand st (randPos st) mod n),
     mkStore (heap st) (rand st) (S (randPos st)),
     [EvRandIntn n]).

(** [slog.Warn]. *)
Definition slog_Warn (msg : string) : M unit := emit (EvWarn msg).

(** Accessors of a finished run. *)
Definition outcome {A} (r : Outcome A * Store * list Event) : Outcome A :=
  fst (fst r).
Definition final {A} (r : Outcome A * Store * list Event) : Store :=
  snd (fst r).
Definition trace {A} (r : Outcome A * Store * list Event) : list Event :=
  snd r.

(** ** The package *)


Section Faults.

(** The header names are constants of the package that are declared
    outside the files at hand; they are parameters here. *)
Variables FaultServerAddressHeader FaultServerMethodHeader : string.
Variables FaultDelayMsHeader FaultDelayPercentageHeader : string.
Variables FaultAbortCodeHeader FaultAbortMessageHeader : string.
Variable FaultAbortPercentageHeader : string.

(** What [ResumeFn] and [ResponseFn] return: the pair
    [(interface{}, error)]. *)
Variable T : Type.

Definition GetHeaderFnT : Type := string -> string.

(** Calling a [GetHeaderFn]. *)
Definition call_GetHeaderFn (f : GetHeaderFnT) (key : string) : M string :=
  emit (EvGetHeader key) ;;; ret (f key).

Record randSingleton := mkRandSingleton {
  randInt : option nat
}.

Definition getRandInt (r : randSingleton) : M Z :=
  (match randInt r with
   | None => v <- rand_Intn 100 ;; store (randInt r) v
   | Some _ => ret tt
   end) ;;;
  load (randInt r).

Definition isSelected (percentageHeader : string) (GetHeaderFn : GetHeaderFnT)
    (singleRand : randSingleton) : M (bool * string) :=
  percentageStr <- call_GetHeaderFn GetHeaderFn percentageHeader ;;
  if (percentageStr =? "")%string then ret (true, "")
  else
    match Go.Atoi percentageStr with
    | (_, Some _) =>
        ret (false,
             "provided delay percentage " ++ percentageStr
               ++ " is not a valid integer")
    | (percentage, None) =>
        if (percentage <? 0) || (100 <? percentage) then
          ret (false,
               "provided delay percentage " ++ Go.Itoa percentage
                 ++ " is outside the valid range of [0-100]")
        else
          r <- getRandInt singleRand ;;
          ret (r <? percentage, "")
    end.

Record InjectFaultParams := mkParams {
  CallerName : string;
  Address : string;
  Method : string;
  AbortCodeMin : Z;
  AbortCodeMax : Z;
  GetHeaderFn : GetHeaderFnT;
  ResumeFn : T;
  ResponseFn : Z -> string -> T;
  RandInt : option nat;
  SleepFn : option Sleeper
}.

Definition call_ResumeFn (params : InjectFaultParams) : M T :=
  emit EvResume ;;; ret (ResumeFn params).

Definition call_ResponseFn (params : InjectFaultParams)
    (code : Z) (message : string) : M T :=
  emit (EvRespond code message) ;;; ret (ResponseFn params code message).

(** The abort block and the final resume of [InjectFault]. *)
Definition abortPhase (params : InjectFaultParams)
    (singleRand : randSingleton) : M T :=
  abortCode <- call_GetHeaderFn (GetHeaderFn params) FaultAbortCodeHeader ;;
  if negb (abortCode =? "")%string then
    '(selected, msg) <-
      isSelected FaultAbortPercentageHeader (GetHeaderFn params) singleRand ;;
    if negb selected then
      slog_Warn (CallerName params ++ ": " ++ msg) ;;;
      call_ResumeFn params
    else
      match Go.Atoi abortCode with
      | (_, Some _) =>
          slog_Warn (CallerName params ++ ": provided abort code "
                       ++ abortCode ++ " is not a valid integer") ;;;
          call_ResumeFn params
      | (code, None) =>
          if (code <? AbortCodeMin params) || (AbortCodeMax params <? code)
          then
            slog_Warn (CallerName params ++ ": provided abort code "
                         ++ Go.Itoa code
                         ++ " is outside of the valid range") ;;;
            call_ResumeFn params
          else
            abortMessage <-
              call_GetHeaderFn (GetHeaderFn params) FaultAbortMessageHeader ;;
            call_ResponseFn params code abortMessage
      end
  else call_ResumeFn params.

(** The delay block of [InjectFault], entered once the address and method
    checks have passed; it ends in the abort block. *)
Definition delayPhase (params : InjectFaultParams) : M T :=
  let singleRand := mkRandSingleton (RandInt params) in
  delayMs <- call_GetHeaderFn (GetHeaderFn params) FaultDelayMsHeader ;;
  if negb (delayMs =? "")%string then
    '(selected, msg) <-
      isSelected FaultDelayPercentageHeader (GetHeaderFn params) singleRand ;;
    if negb selected then
      slog_Warn (CallerName params ++ ": " ++ msg) ;;;
      call_ResumeFn params
    else
      match Go.Atoi delayMs with
      | (_, Some _) =>
          slog_Warn (CallerName params ++ ": provided delay "
                       ++ delayMs ++ " is not a valid integer") ;;;
          call_ResumeFn params
      | (delay, None) =>
          let sleepFn :=
            match SleepFn params with
            | Some f => f
            | None => time_Sleep
            end in
          emit (EvSleep sleepFn (Go.DurationMs delay)) ;;;
          abortPhase params singleRand
      end
  else abortPhase params singleRand.

Definition InjectFault (params : InjectFaultParams) : M T :=
  serverAddress <-
    call_GetHeaderFn (GetHeaderFn params) FaultServerAddressHeader ;;
  if (serverAddress =? "")%string
     || negb (serverAddress
                =? Go.TrimSuffix (Address params) ".svc.cluster.local")%string
  then call_ResumeFn params
  else
    serverMethod <-
      call_GetHeaderFn (GetHeaderFn params) FaultServerMethodHeader ;;
    if negb (serverMethod =? "")%string
       && negb (serverMethod =? Method params)%string
    then call_ResumeFn params
    else delayPhase params.

(** ** Vocabulary of the properties *)

(** The condition under which the address check lets the decision go on
    (the negation of the first test of [InjectFault]). *)
Definition addressPasses (params : InjectFaultParams) : bool :=
  let serverAddress := GetHeaderFn params FaultServerAddressHeader in
  negb ((serverAddress =? "")%string
        || negb (serverAddress
                   =? Go.TrimSuffix (Address params) ".svc.cluster.local")%string).

(** The same for the method check. *)
Definition methodPasses (params : InjectFaultParams) : bool :=
  let serverMethod := GetHeaderFn params FaultServerMethodHeader in
  negb (negb (serverMethod =? "")%string
        && negb (serverMethod =? Method params)%string).

(** A percentage check selects: [isSelected] returns [true]. *)
Definition selects (percentageHeader : string) (params : InjectFaultParams)
    (st : Store) : bool :=
  match outcome (isSelected percentageHeader (GetHeaderFn params)
                   (mkRandSingleton (RandInt params)) st) with
  | Ret (true, _) => true
  | _ => false
  end.

(** The header [key] was looked up during a run with trace [t]. *)
Definition lookedUp (key : string) (t : list Event) : bool :=
  existsb (fun e => match e with
                    | EvGetHeader k => (k =? key)%string
                    | _ => false
                    end) t.

Definition resumed (t : list Event) : bool :=
  existsb (fun e => match e with EvResume => true | _ => false end) t.

Definition responded (t : list Event) : bool :=
  existsb (fun e => match e with EvRespond _ _ => true | _ => false end) t.

Definition warned (msg : string) (t : list Event) : bool :=
  existsb (fun e => match e with
                    | EvWarn m => (m =? msg)%string
                    | _ => false
                    end) t.

(** The calls of the sleep function during a run, in order. *)
Fixpoint sleeps (t : list Event) : list (Sleeper * Z) :=
  match t with
  | [] => []
  | EvSleep fn d :: t' => (fn, d) :: sleeps t'
  | _ :: t' => sleeps t'
  end.

(** The sleep function that [InjectFault] picks. *)
Definition sleepFnOf (params : InjectFaultParams) : Sleeper :=
  match SleepFn params with
  | Some f => f
  | None => time_Sleep
  end.

Fixpoint distinct (l : list string) : bool :=
  match l with
  | [] => true
  | x :: l' => negb (existsb (String.eqb x) l') && distinct l'
  end.

(** The seven header names are pairwise different. *)
Definition headersDistinct : bool :=
  distinct [FaultServerAddressHeader; FaultServerMethodHeader;
            FaultDelayMsHeader; FaultDelayPercentageHeader;
            FaultAbortCodeHeader; FaultAbortMessageHeader;
            FaultAbortPercentageHeader].

(** The same call with the header [key] holding [value]. *)
Definition withHeader (key value : string) (params : InjectFaultParams)
    : InjectFaultParams :=
  mkParams (CallerName params) (Address params) (Method params)
    (AbortCodeMin params) (AbortCodeMax params)
    (fun k => if (k =? key)%string then value else GetHeaderFn params k)
    (ResumeFn params) (ResponseFn params) (RandInt params) (SleepFn params).

(** The calls of [ResumeFn] and [ResponseFn] during a run. *)
Definition isCallback (e : Event) : bool :=
  match e with
  | EvResume | EvRespond _ _ => true
  | _ => false
  end.

Definition callbacks (t : list Event) : nat :=
  List.length (filter isCallback t).

(** The random source was read during a run. *)
Definition drew (t : list Event) : bool :=
  existsb (fun e => match e with EvRandIntn _ => true | _ => false end) t.

(** The messages of the warnings of a run, in order. *)
Fixpoint warnings (t : list Event) : list string :=
  match t with
  | [] => []
  | EvWarn msg :: t' => msg :: warnings t'
  | _ :: t' => warnings t'
  end.

(** The store after a call of [rand.Intn]. *)
Definition afterDraw (st : Store) : Store :=
  mkStore (heap st) (rand st) (S (randPos st)).

End Faults.

Arguments mkParams {T}.
Arguments CallerName {T}.
Arguments Address {T}.
Arguments Method {T}.
Arguments AbortCodeMin {T}.
Arguments AbortCodeMax {T}.
Arguments GetHeaderFn {T}.
Arguments ResumeFn {T}.
Arguments ResponseFn {T}.
Arguments RandInt {T}.
Arguments SleepFn {T}.
Arguments call_ResumeFn {T}.
Arguments call_ResponseFn {T}.
Arguments abortPhase _ _ _ {T}.
Arguments delayPhase _ _ _ _ _ {T}.
Arguments InjectFault _ _ _ _ _ _ _ {T}.
Arguments addressPasses _ {T}.
Arguments methodPasses _ {T}.
Arguments selects {T}.
Arguments sleepFnOf {T}.
Arguments withHeader {T}.

(** ** Concrete inputs *)

Module Sample.

(** Header names for the concrete runs. *)
Definition addressHeader : string := "x-bp-fault-server-address".
Definition methodHeader : string := "x-bp-fault-server-method".
Definition delayMsHeader : string := "x-bp-fault-delay-ms".
Definition delayPercentageHeader : string := "x-bp-fault-delay-percentage".
Definition abortCodeHeader : string := "x-bp-fault-abort-code".
Definition abortMessageHeader : string := "x-bp-fault-abort-message".
Definition abortPercentageHeader : string := "x-bp-fault-abort-percentage".

(** A header lookup over the headers of a request; an absent header is the
    empty string. *)
Definition headers (l : list (string * string)) : GetHeaderFnT :=
  fun key =>
    match find (fun kv => (fst kv =? key)%string) l with
    | Some kv => snd kv
    | None => ""
    end.

(** The results of the callbacks. *)
Inductive Result :=
| Resumed
| Responded (code : Z) (message : string).

(** A call of the method [get] of the service at
    [testService.testNamespace.svc.cluster.local], with abort codes of
    [[400, 599]]. *)
Definition call (hs : list (string * string)) (randInt : option nat)
    : InjectFaultParams Result :=
  mkParams "faults_test" "testService.testNamespace.svc.cluster.local" "get"
    400 599 (headers hs) Resumed Responded randInt None.

(** A store all of whose cells hold [draw]; [Some 0] then is a pointer
    to an injected draw. *)
Definition storeWith (draw : Z) : Store :=
  mkStore (fun _ => draw) (fun _ => 0) 0.

Definition self : string := "testService.testNamespace".

(** No fault header addressed to this service. *)
Definition otherServer : list (string * string) :=
  [(addressHeader, "otherService.testNamespace"); (abortCodeHeader, "503")].

(** A fault for another method, and one for any method. *)
Definition otherMethod : list (string * string) :=
  [(addressHeader, self); (methodHeader, "put"); (abortCodeHeader, "503")].
Definition anyMethod : list (string * string) :=
  [(addressHeader, self); (abortCodeHeader, "503")].

(** A delay with a percentage, as a production caller sends it. *)
Definition delayHalf : list (string * string) :=
  [(addressHeader, self); (delayMsHeader, "10");
   (delayPercentageHeader, "50")].

(** An abort with a percentage, and no delay. *)
Definition abortHalf : list (string * string) :=
  [(addressHeader, self); (abortCodeHeader, "503");
   (abortPercentageHeader, "50")].

(** A delay and an abort, each with its percentage. *)
Definition delayAndAbort : list (string * string) :=
  [(addressHeader, self); (delayMsHeader, "10");
   (delayPercentageHeader, "50"); (abortCodeHeader, "503");
   (abortPercentageHeader, "50")].

Definition abortBoom : list (string * string) :=
  [(addressHeader, self); (abortCodeHeader, "503");
   (abortMessageHeader, "boom"); (abortPercentageHeader, "100")].

Definition abort600 : list (string * string) :=
  [(addressHeader, self); (abortCodeHeader, "600")].

Definition delay10 : list (string * string) :=
  [(addressHeader, self); (delayMsHeader, "10");
   (delayPercentageHeader, "100")].

Definition delayMinus5 : list (string * string) :=
  [(addressHeader, self); (delayMsHeader, "-5")].

(** Delays whose product with [time.Millisecond] leaves the range of
    [time.Duration]. *)
Definition delayHuge : list (string * string) :=
  [(addressHeader, self); (delayMsHeader, "9223372036855")].
Definition delayMinusHuge : list (string * string) :=
  [(addressHeader, self); (delayMsHeader, "-9223372036855")].

(** A delay of percentage 80 and an abort of percentage 20. *)
Definition delay80Abort20 : list (string * string) :=
  [(addressHeader, self); (delayMsHeader, "10");
   (delayPercentageHeader, "80"); (abortCodeHeader, "503");
   (abortPercentageHeader, "20")].

(** Malformed values, each with a well-formed abort code. *)
Definition delayNaN : list (string * string) :=
  [(addressHeader, self); (delayMsHeader, "NaN"); (abortCodeHeader, "503")].
Definition delayPercentageNaN : list (string * string) :=
  [(addressHeader, self); (delayMsHeader, "10");
   (delayPercentageHeader, "NaN"); (abortCodeHeader, "503")].
Definition delayPercentage101 : list (string * string) :=
  [(addressHeader, self); (delayMsHeader, "10");
   (delayPercentageHeader, "101"); (abortCodeHeader, "503")].
Definition abortPercentage101 : list (string * string) :=
  [(addressHeader, self); (abortCodeHeader, "503");
   (abortPercentageHeader, "101")].

(** The server-address header spelling the full address. *)
Definition fullAddress : list (string * string) :=
  [(addressHeader, "testService.testNamespace.svc.cluster.local");
   (abortCodeHeader, "503")].

Definition run (hs : list (string * string)) (randInt : option nat)
    (st : Store) : Outcome Result * Store * list Event :=
  InjectFault addressHeader methodHeader delayMsHeader delayPercentageHeader
    abortCodeHeader abortMessageHeader abortPercentageHeader
    (call hs randInt) st.

End Sample.

(** ** Thrift server middlewares (package [thriftbp])

    A [thrift.TProcessorFunction] is embedded by its [Process] method: a
    function of the context and of the remaining arguments ([seqID], [in],
    [out], which the middlewares below pass on untouched) to a completion,
    a return of [(bool, thrift.TException)] or a panic, and the events it
    produced.  A middleware maps the name of the endpoint and a processor
    function to a processor function. *)

Module thriftbp.

(** The errors that the middlewares tell apart: the two sentinels
    [context.Canceled] and [thrift.ErrAbandonRequest], errors without an
    [Unwrap] method ([errors.New], [fmt.Errorf] without the verb w), errors
    that wrap one error, thrift exceptions that wrap nothing, and the
    wrapper of [thrift.WrapTException]. *)
Inductive error :=
| context_Canceled
| ErrAbandonRequest
| errorString (msg : string)
| wrapError (msg : string) (err : error)
| tException (msg : string)
| wrappedTException (err : error).

(** [errors.Is(err, context.Canceled)] on a non-nil [err]: the sentinel
    itself, at any depth of the chain of [Unwrap]. *)
Fixpoint Is_Canceled (err : error) : bool :=
  match err with
  | context_Canceled => true
  | wrapError _ e => Is_Canceled e
  | wrappedTException e => Is_Canceled e
  | _ => false
  end.

(** [errors.Is(err, context.Canceled)]; [None] is the nil error. *)
Definition errors_Is_Canceled (err : option error) : bool :=
  match err with
  | Some e => Is_Canceled e
  | None => false
  end.

(** The dynamic type of the error implements [thrift.TException]. *)
Definition isTException (err : error) : bool :=
  match err with
  | tException _ | wrappedTException _ => true
  | _ => false
  end.

(** [thrift.WrapTException] on a non-nil error: an error that is a
    [TException] already is returned as it is. *)
Definition WrapTException (err : error) : error :=
  if isTException err then err else wrappedTException err.

(** [err.Error()]. *)
Fixpoint Error (err : error) : string :=
  match err with
  | context_Canceled => "context canceled"
  | ErrAbandonRequest => "request abandoned"
  | errorString msg => msg
  | wrapError msg _ => msg
  | tException msg => msg
  | wrappedTException e => Error e
  end.

(** The value of a panic: an error (the type assertion [r.(error)]
    succeeds; run-time errors are of this kind), or any other value, given
    by its rendering with the verb [+v]. *)
Inductive PanicValue :=
| panicError (err : error)
| panicOther (rendering : string).

Inductive Completion :=
| Returns (ok : bool) (err : option error)
| Panics (r : PanicValue).

(** The effects of the middlewares.  An observed duration stands for the
    observation of its [Seconds()]; the value of a latency observation is
    not modelled.  [EvHandler] is whatever the wrapped function does. *)
Inductive TEvent :=
| EvObserveDeadlineBudget (method client : string) (timeout : Z)
| EvCancel (timeout : Z)
| EvLogPanic (endpoint : string) (err : error)
| EvPanicRecoverInc (method : string)
| EvActiveRequestsInc (method : string)
| EvActiveRequestsDec (method : string)
| EvObserveLatency (method success : string)
| EvTotalRequestsInc
    (method success exception baseplateStatus baseplateStatusCode : string)
| EvLogError (msg : string)
| EvHandler (what : string).

(** [strconv.ParseInt(s, 10, 64)]: on a 64-bit platform this is what
    [strconv.Atoi] computes. *)
Definition ParseInt10 (s : string) : Z * option Go.NumError := Go.Atoi s.

Section Middlewares.

(** [context.Context], and the arguments [seqID], [in] and [out]. *)
Variable Context : Type.
Variable Args : Type.

(** The helper [header(ctx, key)] of the package and the header names of
    package [transport] are declared outside the file; they are
    parameters, as is [context.WithTimeout] (without its [CancelFunc],
    whose call is the event [EvCancel]). *)
Variable header : Context -> string -> string * bool.
Variables HeaderDeadlineBudget HeaderUserAgent HeaderEdgeRequest : string.
Variable WithTimeout : Context -> Z -> Context.

(** The verb [q] of [fmt.Errorf]. *)
Variable Quote : string -> string.

(** [stringifyErrorType], [prometheusbp.BoolString], the code of an error
    that [errors.As] finds to be a [baseplateErrorCoder], and
    [baseplate.ErrorCode(code).String()], all declared outside the file. *)
Variable stringifyErrorType : option error -> string.
Variable BoolString : bool -> string.
Variable baseplateCode : error -> option Z.
Variable ErrorCode_String : Z -> string.

Definition TProcessorFunction : Type :=
  Context -> Args -> Completion * list TEvent.

Definition ProcessorMiddleware : Type :=
  string -> TProcessorFunction -> TProcessorFunction.

(** An [ecinterface.Interface], by its method [HeaderToContext]. *)
Definition EdgeContextImpl : Type :=
  Context -> string -> Context * option error.

(** [ecinterface.Get()]. *)
Variable ecinterface_Get : EdgeContextImpl.

Definition InitializeEdgeContext (ctx : Context) (impl : EdgeContextImpl)
    : Context * list TEvent :=
  match header ctx HeaderEdgeRequest with
  | (_, false) => (ctx, [])
  | (h, true) =>
      match impl ctx h with
      | (ctx', Some err) =>
          (ctx',
           [EvLogError ("Error while parsing EdgeRequestContext: "
                          ++ Error err)])
      | (ctx', None) => (ctx', [])
      end
  end.

Definition InjectEdgeContext (impl : option EdgeContextImpl)
    : ProcessorMiddleware :=
  let impl :=
    match impl with
    | None => ecinterface_Get
    | Some i => i
    end in
  fun name next ctx args =>
    match InitializeEdgeContext ctx impl with
    | (ctx', t0) =>
        match next ctx' args with
        | (c, t) => (c, (t0 ++ t)%list)
        end
    end.

(** The deferred [cancel()] runs when the wrapped function is left, by a
    return or by a panic. *)
Definition ExtractDeadlineBudget : ProcessorMiddleware :=
  fun name next ctx args =>
    match header ctx HeaderDeadlineBudget with
    | (s, true) =>
        match ParseInt10 s with
        | (v, None) =>
            if 1 <=? v then
              let timeout := Go.DurationMs v in
              let ctx' := WithTimeout ctx timeout in
              let client := fst (header ctx' HeaderUserAgent) in
              match next ctx' args with
              | (c, t) =>
                  (c,
                   ([EvObserveDeadlineBudget name client timeout]
                      ++ t ++ [EvCancel timeout])%list)
              end
            else next ctx args
        | (_, Some _) => next ctx args
        end
    | (_, false) => next ctx args
    end.

Definition AbandonCanceledRequests : ProcessorMiddleware :=
  fun name next ctx args =>
    match next ctx args with
    | (Returns ok err, t) =>
        (Returns ok
           (if errors_Is_Canceled err
            then Some (WrapTException ErrAbandonRequest)
            else err),
         t)
    | (Panics r, t) => (Panics r, t)
    end.

(** The deferred function recovers the panic, if any, and sets the named
    results. *)
Definition recoverPanik : ProcessorMiddleware :=
  fun name next ctx args =>
    match next ctx args with
    | (Panics r, t) =>
        let rErr :=
          match r with
          | panicError asErr => asErr
          | panicOther rendering =>
              errorString ("panic in " ++ Quote name ++ ": " ++ rendering)
          end in
        (Returns false (Some (WrapTException rErr)),
         (t ++ [EvLogPanic name rErr; EvPanicRecoverInc name])%list)
    | (Returns ok err, t) => (Returns ok err, t)
    end.

Definition RecoverPanic : ProcessorMiddleware :=
  fun name next => recoverPanik name next.

(** The deferred function reads the named result [err], which is nil when
    the wrapped function panics. *)
Definition PrometheusServerMiddleware : ProcessorMiddleware :=
  fun method next ctx args =>
    match next ctx args with
    | (c, t) =>
        let err :=
          match c with
          | Returns _ err => err
          | Panics _ => None
          end in
        let exceptionTypeLabel := stringifyErrorType err in
        let success :=
          BoolString (match err with None => true | Some _ => false end) in
        let baseplateStatusCode :=
          match err with
          | Some e =>
              match baseplateCode e with
              | Some code => Go.Itoa code
              | None => ""
              end
          | None => ""
          end in
        let baseplateStatus :=
          match err with
          | Some e =>
              match baseplateCode e with
              | Some code =>
                  if (ErrorCode_String code =? "<UNSET>")%string then ""
                  else ErrorCode_String code
              | None => ""
              end
          | None => ""
          end in
        (c,
         ([EvActiveRequestsInc method] ++ t
            ++ [EvObserveLatency method success;
                EvTotalRequestsInc method success exceptionTypeLabel
                  baseplateStatus baseplateStatusCode;
                EvActiveRequestsDec method])%list)
    end.

(** ** Vocabulary of the properties *)

(** The net change of the gauge of active requests of [method]. *)
Fixpoint activeRequests (method : string) (t : list TEvent) : Z :=
  match t with
  | [] => 0
  | EvActiveRequestsInc m :: t' =>
      (if (m =? method)%string then 1 else 0) + activeRequests method t'
  | EvActiveRequestsDec m :: t' =>
      (if (m =? method)%string then -1 else 0) + activeRequests method t'
  | _ :: t' => activeRequests method t'
  end.

(** The number of panics counted for [method]. *)
Fixpoint panicsCounted (method : string) (t : list TEvent) : nat :=
  match t with
  | [] => 0%nat
  | EvPanicRecoverInc m :: t' =>
      ((if (m =? method)%string then 1 else 0) + panicsCounted method t')%nat
  | _ :: t' => panicsCounted method t'
  end.

(** The timeouts whose [CancelFunc] was called. *)
Fixpoint cancels (t : list TEvent) : list Z :=
  match t with
  | [] => []
  | EvCancel d :: t' => d :: cancels t'
  | _ :: t' => cancels t'
  end.

End Middlewares.

End thriftbp.

Arguments thriftbp.InitializeEdgeContext {Context}.
Arguments thriftbp.InjectEdgeContext {Context Args}.
Arguments thriftbp.ExtractDeadlineBudget {Context Args}.
Arguments thriftbp.AbandonCanceledRequests {Context Args}.
Arguments thriftbp.recoverPanik {Context Args}.
Arguments thriftbp.RecoverPanic {Context Args}.
Arguments thriftbp.PrometheusServerMiddleware {Context Args}.

(** ** Concrete inputs for the middlewares *)

Module ThriftSample.

Import thriftbp.

(** A context: its thrift headers and the timeouts set on it, innermost
    first. *)
Record Ctx := mkCtx {
  ctxHeaders : list (string * string);
  ctxTimeouts : list Z
}.

Definition header (ctx : Ctx) (key : string) : string * bool :=
  match find (fun kv => (fst kv =? key)%string) (ctxHeaders ctx) with
  | Some kv => (snd kv, true)
  | None => ("", false)
  end.

Definition WithTimeout (ctx : Ctx) (timeout : Z) : Ctx :=
  mkCtx (ctxHeaders ctx) (timeout :: ctxTimeouts ctx).

Definition deadlineBudget : string := "Deadline-Budget".
Definition userAgent : string := "User-Agent".
Definition edgeRequest : string := "Edge-Request".

Definition doubleQuote : string := String (ascii_of_nat 34) EmptyString.
Definition Quote (s : string) : string := doubleQuote ++ s ++ doubleQuote.

Definition stringifyErrorType (err : option error) : string :=
  match err with
  | None => ""
  | Some e => if isTException e then "thrift.TException" else "error"
  end.

Definition BoolString (b : bool) : string := if b then "true" else "false".

Definition baseplateCode (err : error) : option Z :=
  match err with
  | tException "NOT_FOUND" => Some 404
  | _ => None
  end.

Definition ErrorCode_String (code : Z) : string :=
  if code =? 404 then "NOT_FOUND" else "<UNSET>".

(** Handlers: each reports the timeouts of the context it is given. *)
Definition report (ctx : Ctx) : TEvent :=
  EvHandler (String.concat "," (map Go.Itoa (ctxTimeouts ctx))).

Definition succeeds : TProcessorFunction Ctx unit :=
  fun ctx _ => (Returns true None, [report ctx]).

Definition canceled : TProcessorFunction Ctx unit :=
  fun ctx _ =>
    (Returns false (Some (wrapError "get: context canceled" context_Canceled)),
     [report ctx]).

Definition panics : TProcessorFunction Ctx unit :=
  fun ctx _ => (Panics (panicOther "boom"), [report ctx]).

(** An edge context implementation that rejects every header and hands
    back a context without headers. *)
Definition rejecting : EdgeContextImpl Ctx :=
  fun ctx _ => (mkCtx [] (ctxTimeouts ctx), Some (errorString "bad header")).

Definition accepting : EdgeContextImpl Ctx :=
  fun ctx h => (mkCtx (("edge", h) :: ctxHeaders ctx) (ctxTimeouts ctx), None).

Definition withBudget (budget : string) : Ctx :=
  mkCtx [(deadlineBudget, budget); (userAgent, "client")] [].

Definition noBudget : Ctx := mkCtx [(userAgent, "client")] [].

Definition withEdge : Ctx := mkCtx [(edgeRequest, "token")] [].

End ThriftSample.

(** ** Checks of the library models *)

Example Atoi_signs :
  Go.Atoi "-5" = (-5, None) /\ Go.Atoi "+7" = (7, None)
  /\ Go.Atoi "007" = (7, None) /\ Go.Atoi "100" = (100, None).
Proof. repeat split. Qed.

Example Atoi_syntax_errors :
  Go.Atoi "" = (0, Some Go.ErrSyntax) /\ Go.Atoi "-" = (0, Some Go.ErrSyntax)
  /\ Go.Atoi "NaN" = (0, Some Go.ErrSyntax)
  /\ Go.Atoi "12a" = (0, Some Go.ErrSyntax)
  /\ Go.Atoi " 1" = (0, Some Go.ErrSyntax).
Proof. repeat split. Qed.

Example Atoi_range :
  Go.Atoi "9223372036854775807" = (Go.maxInt, None)
  /\ Go.Atoi "9223372036854775808" = (Go.maxInt, Some Go.ErrRange)
  /\ Go.Atoi "-9223372036854775808" = (Go.minInt, None)
  /\ Go.Atoi "-9223372036854775809" = (Go.minInt, Some Go.ErrRange).
Proof. repeat split. Qed.

Example TrimSuffix_cluster_local :
  Go.TrimSuffix "testService.testNamespace.svc.cluster.local"
    ".svc.cluster.local" = "testService.testNamespace"
  /\ Go.TrimSuffix "testService.testNamespace" ".svc.cluster.local"
     = "testService.testNamespace"
  /\ Go.TrimSuffix "" ".svc.cluster.local" = "".
Proof. repeat split. Qed.

Example DurationMs_wraps :
  Go.DurationMs 10 = 10000000
  /\ Go.DurationMs 9223372036854 = 9223372036854000000
  /\ Go.DurationMs 9223372036855 = -9223372036854551616
  /\ Go.DurationMs (-9223372036855) = 9223372036854551616.
Proof. repeat split. Qed.

(** The cases of [TestParsingFaultConfiguration] on the model of the
    matcher. *)
Example Match_tests :
  Headers.Match [] "" "" 0 0 = (None, [])
  /\ Headers.Match ["a=foo"] "foo" "" 0 0 =
     (Some (Headers.mkDirective "foo" "" 0 100 (-1) "" 100), [])
  /\ Headers.Match ["a=bar"; "a=foo, a=quux"] "baz" "" 0 0 = (None, [])
  /\ Headers.Match ["foo"] "" "" 0 0 = (None, [Headers.MalformedPair "foo"])
  /\ Headers.Match ["foo"; "bar, baz"] "" "" 0 0 =
     (None, [Headers.MalformedPair "foo"; Headers.MalformedPair "bar";
             Headers.MalformedPair "baz"])
  /\ Headers.Match ["foo"; "a=bar, baz"] "bar" "" 0 0 =
     (Some (Headers.mkDirective "bar" "" 0 100 (-1) "" 100),
      [Headers.MalformedPair "foo"; Headers.MalformedPair "baz"]).
Proof. repeat split. Qed.

(** Cases of [TestParseMatchingFaultHeader]. *)
Example Match_header_tests :
  Headers.Match [""] "" "" 0 0 = (None, [])
  /\ Headers.Match ["m=bar"] "" "" 0 0 = (None, [])
  /\ Headers.Match ["a=foo;m=bar;d=100;D=50;f=500;b=Fault injected!;F=75"]
       "foo" "bar" 0 599 =
     (Some (Headers.mkDirective "foo" "bar" 100 50 500 "Fault injected!" 75),
      [])
  /\ Headers.Match ["a=foo;m=bar"] "foo" "baz" 0 0 = (None, [])
  /\ Headers.Match ["a=foo;d=NaN"] "foo" "" 0 0 =
     (None, [Headers.InvalidIntegerFormat "NaN"])
  /\ Headers.Match ["a=foo;D=101"] "foo" "" 0 0 =
     (None, [Headers.PercentageOutOfRange 101])
  /\ Headers.Match ["a=foo;f=600"] "foo" "" 400 599 =
     (None, [Headers.AbortCodeOutOfRange 600 400 599])
  /\ Headers.Match ["foo=bar"] "" "" 0 0 = (None, [Headers.UnknownKey "foo"]).
Proof. repeat split. Qed.

Section Properties.

Variables FaultServerAddressHeader FaultServerMethodHeader : string.
Variables FaultDelayMsHeader FaultDelayPercentageHeader : string.
Variables FaultAbortCodeHeader FaultAbortMessageHeader : string.
Variable FaultAbortPercentageHeader : string.
Variable T : Type.

Local Abbreviation InjectFaultParams := (InjectFaultParams T).
Local Abbreviation abortPhase :=
  (abortPhase FaultAbortCodeHeader FaultAbortMessageHeader
     FaultAbortPercentageHeader).
Local Abbreviation delayPhase :=
  (delayPhase FaultDelayMsHeader FaultDelayPercentageHeader
     FaultAbortCodeHeader FaultAbortMessageHeader FaultAbortPercentageHeader).
Local Abbreviation InjectFault :=
  (InjectFault FaultServerAddressHeader FaultServerMethodHeader
     FaultDelayMsHeader FaultDelayPercentageHeader
     FaultAbortCodeHeader FaultAbortMessageHeader FaultAbortPercentageHeader).
Local Abbreviation addressPasses := (addressPasses FaultServerAddressHeader).
Local Abbreviation methodPasses := (methodPasses FaultServerMethodHeader).
Local Abbreviation headersDistinct :=
  (headersDistinct FaultServerAddressHeader FaultServerMethodHeader
     FaultDelayMsHeader FaultDelayPercentageHeader
     FaultAbortCodeHeader FaultAbortMessageHeader FaultAbortPercentageHeader).

Implicit Types params : InjectFaultParams.

(** ** Running the monad *)

Lemma bind_Ret {A B} (m : M A) (f : A -> M B) st a st1 t1 :
  m st = (Ret a, st1, t1) ->
  bind m f st =
  (outcome (f a st1), final (f a st1), (t1 ++ trace (f a st1))%list).
Proof.
  intros E. unfold bind, outcome, final, trace. rewrite E.
  destruct (f a st1) as [[r st2] t2]. reflexivity.
Qed.

Lemma bind_Panic {A B} (m : M A) (f : A -> M B) st msg st1 t1 :
  m st = (Panic msg, st1, t1) ->
  bind m f st = (Panic msg, st1, t1).
Proof. intros E. unfold bind. rewrite E. reflexivity. Qed.

Lemma call_GetHeaderFn_run f key st :
  call_GetHeaderFn f key st = (Ret (f key), st, [EvGetHeader key]).
Proof. reflexivity. Qed.

Lemma call_ResumeFn_run params st :
  call_ResumeFn params st = (Ret (ResumeFn params), st, [EvResume]).
Proof. reflexivity. Qed.

Lemma warn_resume_run params msg st :
  (slog_Warn msg ;;; call_ResumeFn params) st =
  (Ret (ResumeFn params), st, [EvWarn msg; EvResume]).
Proof. reflexivity. Qed.

Lemma run_eta {A} (r : Outcome A * Store * list Event) :
  r = (outcome r, final r, trace r).
Proof. destruct r as [[o s] t]. reflexivity. Qed.

(** ** [strconv.Atoi] *)

Lemma Atoi_ok_nonempty s n : Go.Atoi s = (n, None) -> (s =? "")%string = false.
Proof. destruct s; [discriminate | reflexivity]. Qed.

Lemma Atoi_ok_range s n :
  Go.Atoi s = (n, None) -> Go.minInt <= n <= Go.maxInt.
Proof.
  unfold Go.Atoi.
  set (body := match s with String "-" r => r | String "+" r => r | _ => s end).
  set (neg := match s with String "-" _ => true | _ => false end).
  destruct body; [discriminate|].
  destruct (Go.digits _ 0) as [v|]; [|discriminate].
  destruct (Z.ltb_spec (if neg then - v else v) Go.minInt); [discriminate|].
  destruct (Z.ltb_spec Go.maxInt (if neg then - v else v)); [discriminate|].
  intros E. inversion E. subst. lia.
Qed.

(** ** [getRandInt] and [isSelected] *)

Lemma getRandInt_injected l st :
  getRandInt (mkRandSingleton (Some l)) st = (Ret (heap st l), st, []).
Proof. reflexivity. Qed.

Lemma getRandInt_nil st :
  getRandInt (mkRandSingleton None) st =
  (Panic nilDeref, afterDraw st, [EvRandIntn 100]).
Proof. reflexivity. Qed.

Lemma isSelected_absent hdr get sr st :
  get hdr = "" ->
  isSelected hdr get sr st = (Ret (true, ""), st, [EvGetHeader hdr]).
Proof.
  intros E. unfold isSelected.
  rewrite (bind_Ret _ _ _ _ _ _ (call_GetHeaderFn_run get hdr st)).
  rewrite E. reflexivity.
Qed.

Lemma isSelected_not_integer hdr get sr st n e :
  get hdr <> "" ->
  Go.Atoi (get hdr) = (n, Some e) ->
  isSelected hdr get sr st =
  (Ret (false, "provided delay percentage " ++ get hdr
                 ++ " is not a valid integer"), st, [EvGetHeader hdr]).
Proof.
  intros NE E. unfold isSelected.
  rewrite (bind_Ret _ _ _ _ _ _ (call_GetHeaderFn_run get hdr st)).
  apply String.eqb_neq in NE. rewrite NE, E. reflexivity.
Qed.

Lemma isSelected_out_of_range hdr get sr st p :
  Go.Atoi (get hdr) = (p, None) ->
  p < 0 \/ 100 < p ->
  isSelected hdr get sr st =
  (Ret (false, "provided delay percentage " ++ Go.Itoa p
                 ++ " is outside the valid range of [0-100]"),
   st, [EvGetHeader hdr]).
Proof.
  intros E R. unfold isSelected.
  rewrite (bind_Ret _ _ _ _ _ _ (call_GetHeaderFn_run get hdr st)).
  rewrite (Atoi_ok_nonempty _ _ E), E.
  replace ((p <? 0) || (100 <? p)) with true; [reflexivity|].
  symmetry. apply orb_true_iff. rewrite !Z.ltb_lt. exact R.
Qed.

Lemma isSelected_injected hdr get l st p :
  Go.Atoi (get hdr) = (p, None) ->
  0 <= p <= 100 ->
  isSelected hdr get (mkRandSingleton (Some l)) st =
  (Ret (heap st l <? p, ""), st, [EvGetHeader hdr]).
Proof.
  intros E R. unfold isSelected.
  rewrite (bind_Ret _ _ _ _ _ _ (call_GetHeaderFn_run get hdr st)).
  rewrite (Atoi_ok_nonempty _ _ E), E.
  replace ((p <? 0) || (100 <? p)) with false; [reflexivity|].
  symmetry. apply orb_false_iff. rewrite !Z.ltb_ge. lia.
Qed.

Lemma isSelected_nil hdr get st p :
  Go.Atoi (get hdr) = (p, None) ->
  0 <= p <= 100 ->
  isSelected hdr get (mkRandSingleton None) st =
  (Panic nilDeref, afterDraw st, [EvGetHeader hdr; EvRandIntn 100]).
Proof.
  intros E R. unfold isSelected.
  rewrite (bind_Ret _ _ _ _ _ _ (call_GetHeaderFn_run get hdr st)).
  rewrite (Atoi_ok_nonempty _ _ E), E.
  replace ((p <? 0) || (100 <? p)) with false; [reflexivity|].
  symmetry. apply orb_false_iff. rewrite !Z.ltb_ge. lia.
Qed.

(** Every run of [isSelected] either returns, with the store untouched and
    the one header lookup as its trace, or panics in [getRandInt] on the
    nil pointer. *)
Lemma isSelected_runs hdr get sr st :
  (exists b msg, isSelected hdr get sr st = (Ret (b, msg), st, [EvGetHeader hdr]))
  \/ (randInt sr = None /\
      isSelected hdr get sr st =
      (Panic nilDeref, afterDraw st, [EvGetHeader hdr; EvRandIntn 100])).
Proof.
  destruct (String.eqb_spec (get hdr) "") as [E|NE].
  - left. do 2 eexists. apply isSelected_absent, E.
  - destruct (Go.Atoi (get hdr)) as [p [e|]] eqn:A.
    + left. do 2 eexists. eapply isSelected_not_integer; eauto.
    + destruct (Z_lt_dec p 0) as [L|L];
        [left; do 2 eexists; eapply isSelected_out_of_range; [exact A | lia]|].
      destruct (Z_lt_dec 100 p) as [U|U];
        [left; do 2 eexists; eapply isSelected_out_of_range; [exact A | lia]|].
      destruct sr as [[l|]].
      * left. do 2 eexists. apply isSelected_injected; [exact A | lia].
      * right. split; [reflexivity|]. apply (isSelected_nil hdr get st p); [exact A | lia].
Qed.

(** ** The abort block *)

Ltac run_bind E := rewrite (bind_Ret _ _ _ _ _ _ E); cbv beta.

Lemma abortPhase_absent params sr st :
  GetHeaderFn params FaultAbortCodeHeader = "" ->
  abortPhase params sr st =
  (Ret (ResumeFn params), st, [EvGetHeader FaultAbortCodeHeader; EvResume]).
Proof.
  intros E. unfold abortPhase.
  run_bind (call_GetHeaderFn_run (GetHeaderFn params) FaultAbortCodeHeader st).
  rewrite E. reflexivity.
Qed.

Lemma abortPhase_check_panics params sr st msg st1 t1 :
  GetHeaderFn params FaultAbortCodeHeader <> "" ->
  isSelected FaultAbortPercentageHeader (GetHeaderFn params) sr st =
    (Panic msg, st1, t1) ->
  abortPhase params sr st =
  (Panic msg, st1, EvGetHeader FaultAbortCodeHeader :: t1).
Proof.
  intros NE S. unfold abortPhase.
  run_bind (call_GetHeaderFn_run (GetHeaderFn params) FaultAbortCodeHeader st).
  apply String.eqb_neq in NE. rewrite NE. cbn [negb].
  rewrite (bind_Panic _ _ _ _ _ _ S). reflexivity.
Qed.

Lemma abortPhase_not_selected params sr st msg :
  GetHeaderFn params FaultAbortCodeHeader <> "" ->
  isSelected FaultAbortPercentageHeader (GetHeaderFn params) sr st =
    (Ret (false, msg), st, [EvGetHeader FaultAbortPercentageHeader]) ->
  abortPhase params sr st =
  (Ret (ResumeFn params), st,
   [EvGetHeader FaultAbortCodeHeader; EvGetHeader FaultAbortPercentageHeader;
    EvWarn (CallerName params ++ ": " ++ msg); EvResume]).
Proof.
  intros NE S. unfold abortPhase.
  run_bind (call_GetHeaderFn_run (GetHeaderFn params) FaultAbortCodeHeader st).
  apply String.eqb_neq in NE. rewrite NE. cbn [negb].
  run_bind S. reflexivity.
Qed.

Lemma abortPhase_not_integer params sr st msg n e :
  GetHeaderFn params FaultAbortCodeHeader <> "" ->
  isSelected FaultAbortPercentageHeader (GetHeaderFn params) sr st =
    (Ret (true, msg), st, [EvGetHeader FaultAbortPercentageHeader]) ->
  Go.Atoi (GetHeaderFn params FaultAbortCodeHeader) = (n, Some e) ->
  abortPhase params sr st =
  (Ret (ResumeFn params), st,
   [EvGetHeader FaultAbortCodeHeader; EvGetHeader FaultAbortPercentageHeader;
    EvWarn (CallerName params ++ ": provided abort code "
              ++ GetHeaderFn params FaultAbortCodeHeader
              ++ " is not a valid integer");
    EvResume]).
Proof.
  intros NE S A. unfold abortPhase.
  run_bind (call_GetHeaderFn_run (GetHeaderFn params) FaultAbortCodeHeader st).
  apply String.eqb_neq in NE. rewrite NE. cbn [negb].
  run_bind S. cbn [negb]. rewrite A. reflexivity.
Qed.

Lemma abortPhase_out_of_range params sr st msg code :
  isSelected FaultAbortPercentageHeader (GetHeaderFn params) sr st =
    (Ret (true, msg), st, [EvGetHeader FaultAbortPercentageHeader]) ->
  Go.Atoi (GetHeaderFn params FaultAbortCodeHeader) = (code, None) ->
  code < AbortCodeMin params \/ AbortCodeMax params < code ->
  abortPhase params sr st =
  (Ret (ResumeFn params), st,
   [EvGetHeader FaultAbortCodeHeader; EvGetHeader FaultAbortPercentageHeader;
    EvWarn (CallerName params ++ ": provided abort code " ++ Go.Itoa code
              ++ " is outside of the valid range");
    EvResume]).
Proof.
  intros S A R. unfold abortPhase.
  run_bind (call_GetHeaderFn_run (GetHeaderFn params) FaultAbortCodeHeader st).
  rewrite (Atoi_ok_nonempty _ _ A). cbn [negb].
  run_bind S. cbn [negb]. rewrite A.
  replace ((code <? AbortCodeMin params) || (AbortCodeMax params <? code))
    with true; [reflexivity|].
  symmetry. apply orb_true_iff. rewrite !Z.ltb_lt. exact R.
Qed.

Lemma abortPhase_responds params sr st msg code :
  isSelected FaultAbortPercentageHeader (GetHeaderFn params) sr st =
    (Ret (true, msg), st, [EvGetHeader FaultAbortPercentageHeader]) ->
  Go.Atoi (GetHeaderFn params FaultAbortCodeHeader) = (code, None) ->
  AbortCodeMin params <= code <= AbortCodeMax params ->
  abortPhase params sr st =
  (Ret (ResponseFn params code (GetHeaderFn params FaultAbortMessageHeader)),
   st,
   [EvGetHeader FaultAbortCodeHeader; EvGetHeader FaultAbortPercentageHeader;
    EvGetHeader FaultAbortMessageHeader;
    EvRespond code (GetHeaderFn params FaultAbortMessageHeader)]).
Proof.
  intros S A R. unfold abortPhase.
  run_bind (call_GetHeaderFn_run (GetHeaderFn params) FaultAbortCodeHeader st).
  rewrite (Atoi_ok_nonempty _ _ A). cbn [negb].
  run_bind S. cbn [negb]. rewrite A.
  replace ((code <? AbortCodeMin params) || (AbortCodeMax params <? code))
    with false; [reflexivity|].
  symmetry. apply orb_false_iff. rewrite !Z.ltb_ge. lia.
Qed.

(** ** The delay block *)

Lemma delayPhase_absent params st :
  GetHeaderFn params FaultDelayMsHeader = "" ->
  delayPhase params st =
  (outcome (abortPhase params (mkRandSingleton (RandInt params)) st),
   final (abortPhase params (mkRandSingleton (RandInt params)) st),
   EvGetHeader FaultDelayMsHeader
     :: trace (abortPhase params (mkRandSingleton (RandInt params)) st)).
Proof.
  intros E. unfold delayPhase. cbv zeta.
  run_bind (call_GetHeaderFn_run (GetHeaderFn params) FaultDelayMsHeader st).
  rewrite E. reflexivity.
Qed.

Lemma delayPhase_check_panics params st msg st1 t1 :
  GetHeaderFn params FaultDelayMsHeader <> "" ->
  isSelected FaultDelayPercentageHeader (GetHeaderFn params)
    (mkRandSingleton (RandInt params)) st = (Panic msg, st1, t1) ->
  delayPhase params st =
  (Panic msg, st1, EvGetHeader FaultDelayMsHeader :: t1).
Proof.
  intros NE S. unfold delayPhase. cbv zeta.
  run_bind (call_GetHeaderFn_run (GetHeaderFn params) FaultDelayMsHeader st).
  apply String.eqb_neq in NE. rewrite NE. cbn [negb].
  rewrite (bind_Panic _ _ _ _ _ _ S). reflexivity.
Qed.

Lemma delayPhase_not_selected params st msg :
  GetHeaderFn params FaultDelayMsHeader <> "" ->
  isSelected FaultDelayPercentageHeader (GetHeaderFn params)
    (mkRandSingleton (RandInt params)) st =
    (Ret (false, msg), st, [EvGetHeader FaultDelayPercentageHeader]) ->
  delayPhase params st =
  (Ret (ResumeFn params), st,
   [EvGetHeader FaultDelayMsHeader; EvGetHeader FaultDelayPercentageHeader;
    EvWarn (CallerName params ++ ": " ++ msg); EvResume]).
Proof.
  intros NE S. unfold delayPhase. cbv zeta.
  run_bind (call_GetHeaderFn_run (GetHeaderFn params) FaultDelayMsHeader st).
  apply String.eqb_neq in NE. rewrite NE. cbn [negb].
  run_bind S. reflexivity.
Qed.

Lemma delayPhase_not_integer params st msg n e :
  GetHeaderFn params FaultDelayMsHeader <> "" ->
  isSelected FaultDelayPercentageHeader (GetHeaderFn params)
    (mkRandSingleton (RandInt params)) st =
    (Ret (true, msg), st, [EvGetHeader FaultDelayPercentageHeader]) ->
  Go.Atoi (GetHeaderFn params FaultDelayMsHeader) = (n, Some e) ->
  delayPhase params st =
  (Ret (ResumeFn params), st,
   [EvGetHeader FaultDelayMsHeader; EvGetHeader FaultDelayPercentageHeader;
    EvWarn (CallerName params ++ ": provided delay "
              ++ GetHeaderFn params FaultDelayMsHeader
              ++ " is not a valid integer");
    EvResume]).
Proof.
  intros NE S A. unfold delayPhase. cbv zeta.
  run_bind (call_GetHeaderFn_run (GetHeaderFn params) FaultDelayMsHeader st).
  apply String.eqb_neq in NE. rewrite NE. cbn [negb].
  run_bind S. cbn [negb]. rewrite A. reflexivity.
Qed.

(** A selected, well-formed delay: one call of the sleep function, with
    the wrapped product as its duration, and then the abort block. *)
Lemma delayPhase_sleeps params st msg delay :
  isSelected FaultDelayPercentageHeader (GetHeaderFn params)
    (mkRandSingleton (RandInt params)) st =
    (Ret (true, msg), st, [EvGetHeader FaultDelayPercentageHeader]) ->
  Go.Atoi (GetHeaderFn params FaultDelayMsHeader) = (delay, None) ->
  delayPhase params st =
  (outcome (abortPhase params (mkRandSingleton (RandInt params)) st),
   final (abortPhase params (mkRandSingleton (RandInt params)) st),
   [EvGetHeader FaultDelayMsHeader; EvGetHeader FaultDelayPercentageHeader;
    EvSleep (sleepFnOf params) (Go.DurationMs delay)]
     ++ trace (abortPhase params (mkRandSingleton (RandInt params)) st))%list.
Proof.
  intros S A. unfold delayPhase. cbv zeta.
  run_bind (call_GetHeaderFn_run (GetHeaderFn params) FaultDelayMsHeader st).
  rewrite (Atoi_ok_nonempty _ _ A). cbn [negb].
  run_bind S. cbn [negb]. rewrite A.
  unfold bind, emit, outcome, final, trace, sleepFnOf.
  destruct (abortPhase _ _ st) as [[r st2] t2]. reflexivity.
Qed.

(** ** The two checks at the head of [InjectFault] *)

Lemma InjectFault_address_fails params st :
  addressPasses params = false ->
  InjectFault params st =
  (Ret (ResumeFn params), st, [EvGetHeader FaultServerAddressHeader; EvResume]).
Proof.
  unfold addressPasses, InjectFault. cbv zeta. intros E.
  apply negb_false_iff in E.
  run_bind (call_GetHeaderFn_run (GetHeaderFn params)
              FaultServerAddressHeader st).
  rewrite E. reflexivity.
Qed.

Lemma InjectFault_method_fails params st :
  addressPasses params = true ->
  methodPasses params = false ->
  InjectFault params st =
  (Ret (ResumeFn params), st,
   [EvGetHeader FaultServerAddressHeader; EvGetHeader FaultServerMethodHeader;
    EvResume]).
Proof.
  unfold addressPasses, methodPasses, InjectFault. cbv zeta. intros E1 E2.
  apply negb_true_iff in E1. apply negb_false_iff in E2.
  run_bind (call_GetHeaderFn_run (GetHeaderFn params)
              FaultServerAddressHeader st).
  rewrite E1.
  run_bind (call_GetHeaderFn_run (GetHeaderFn params)
              FaultServerMethodHeader st).
  rewrite E2. reflexivity.
Qed.

Lemma InjectFault_checks_pass params st :
  addressPasses params = true ->
  methodPasses params = true ->
  InjectFault params st =
  (outcome (delayPhase params st), final (delayPhase params st),
   [EvGetHeader FaultServerAddressHeader; EvGetHeader FaultServerMethodHeader]
     ++ trace (delayPhase params st))%list.
Proof.
  unfold addressPasses, methodPasses, InjectFault. cbv zeta. intros E1 E2.
  apply negb_true_iff in E1. apply negb_true_iff in E2.
  run_bind (call_GetHeaderFn_run (GetHeaderFn params)
              FaultServerAddressHeader st).
  rewrite E1.
  run_bind (call_GetHeaderFn_run (GetHeaderFn params)
              FaultServerMethodHeader st).
  rewrite E2. reflexivity.
Qed.

(** ** Every run of the two blocks *)

Ltac run_simpl := cbn [outcome final trace fst snd app] in *.

Lemma selects_run hdr params st :
  selects hdr params st = true ->
  exists msg,
    isSelected hdr (GetHeaderFn params) (mkRandSingleton (RandInt params)) st =
    (Ret (true, msg), st, [EvGetHeader hdr]).
Proof.
  unfold selects. intros S.
  destruct (isSelected_runs hdr (GetHeaderFn params)
              (mkRandSingleton (RandInt params)) st)
    as [(b & msg & E) | (_ & E)]; rewrite E in S; run_simpl.
  - destruct b; [exists msg; exact E | discriminate].
  - discriminate.
Qed.

Lemma abortPhase_runs params sr st :
  abortPhase params sr st =
    (Ret (ResumeFn params), st, [EvGetHeader FaultAbortCodeHeader; EvResume])
  \/ (exists w,
        abortPhase params sr st =
        (Ret (ResumeFn params), st,
         [EvGetHeader FaultAbortCodeHeader;
          EvGetHeader FaultAbortPercentageHeader; EvWarn w; EvResume]))
  \/ (exists code,
        abortPhase params sr st =
        (Ret (ResponseFn params code
                (GetHeaderFn params FaultAbortMessageHeader)), st,
         [EvGetHeader FaultAbortCodeHeader;
          EvGetHeader FaultAbortPercentageHeader;
          EvGetHeader FaultAbortMessageHeader;
          EvRespond code (GetHeaderFn params FaultAbortMessageHeader)]))
  \/ (randInt sr = None /\
      abortPhase params sr st =
      (Panic nilDeref, afterDraw st,
       [EvGetHeader FaultAbortCodeHeader;
        EvGetHeader FaultAbortPercentageHeader; EvRandIntn 100])).
Proof.
  destruct (String.eqb_spec (GetHeaderFn params FaultAbortCodeHeader) "")
    as [E|NE].
  { left. apply abortPhase_absent, E. }
  destruct (isSelected_runs FaultAbortPercentageHeader (GetHeaderFn params)
              sr st) as [(b & msg & S) | (N & S)].
  2:{ right; right; right. split; [exact N|].
      apply (abortPhase_check_panics _ _ _ _ _ _ NE S). }
  destruct b.
  2:{ right; left. eexists. apply (abortPhase_not_selected _ _ _ _ NE S). }
  destruct (Go.Atoi (GetHeaderFn params FaultAbortCodeHeader))
    as [code [e|]] eqn:A.
  { right; left. eexists. apply (abortPhase_not_integer _ _ _ _ _ _ NE S A). }
  destruct (Z_lt_dec code (AbortCodeMin params)) as [L|L].
  { right; left. eexists.
    apply (abortPhase_out_of_range _ _ _ _ _ S A). left; exact L. }
  destruct (Z_lt_dec (AbortCodeMax params) code) as [U|U].
  { right; left. eexists.
    apply (abortPhase_out_of_range _ _ _ _ _ S A). right; exact U. }
  right; right; left. exists code.
  apply (abortPhase_responds _ _ _ _ _ S A). lia.
Qed.

(** The delay block either falls through to the abort block (after the
    lookup of the delay header alone, or after one sleep), or ends the
    decision: a warning and a resume, or the panic of [getRandInt]. *)
Lemma delayPhase_runs params st :
  let r := abortPhase params (mkRandSingleton (RandInt params)) st in
  (GetHeaderFn params FaultDelayMsHeader = "" /\
   delayPhase params st =
   (outcome r, final r, EvGetHeader FaultDelayMsHeader :: trace r))
  \/ (exists delay,
        Go.Atoi (GetHeaderFn params FaultDelayMsHeader) = (delay, None) /\
        selects FaultDelayPercentageHeader params st = true /\
        delayPhase params st =
        (outcome r, final r,
         [EvGetHeader FaultDelayMsHeader;
          EvGetHeader FaultDelayPercentageHeader;
          EvSleep (sleepFnOf params) (Go.DurationMs delay)] ++ trace r)%list)
  \/ (exists w,
        delayPhase params st =
        (Ret (ResumeFn params), st,
         [EvGetHeader FaultDelayMsHeader;
          EvGetHeader FaultDelayPercentageHeader; EvWarn w; EvResume]))
  \/ (RandInt params = None /\
      delayPhase params st =
      (Panic nilDeref, afterDraw st,
       [EvGetHeader FaultDelayMsHeader;
        EvGetHeader FaultDelayPercentageHeader; EvRandIntn 100])).
Proof.
  intros r.
  destruct (String.eqb_spec (GetHeaderFn params FaultDelayMsHeader) "")
    as [E|NE].
  { left. split; [exact E | apply delayPhase_absent, E]. }
  destruct (isSelected_runs FaultDelayPercentageHeader (GetHeaderFn params)
              (mkRandSingleton (RandInt params)) st)
    as [(b & msg & S) | (N & S)].
  2:{ right; right; right. split; [exact N|].
      apply (delayPhase_check_panics _ _ _ _ _ NE S). }
  destruct b.
  2:{ right; right; left. eexists.
      apply (delayPhase_not_selected _ _ _ NE S). }
  destruct (Go.Atoi (GetHeaderFn params FaultDelayMsHeader))
    as [delay [e|]] eqn:A.
  { right; right; left. eexists.
    apply (delayPhase_not_integer _ _ _ _ _ NE S A). }
  right; left. exists delay. split; [reflexivity|]. split.
  - unfold selects. rewrite S. reflexivity.
  - apply (delayPhase_sleeps _ _ _ _ S A).
Qed.

(** [InjectFault] always terminates, in one of three ways: with the result
    of [ResumeFn], with the result of [ResponseFn] at some code and the
    abort message, or with the nil-pointer panic of [getRandInt], which
    only happens when [RandInt] is nil. *)
Lemma InjectFault_outcomes params st :
  outcome (InjectFault params st) = Ret (ResumeFn params)
  \/ (exists code,
        outcome (InjectFault params st) =
        Ret (ResponseFn params code
               (GetHeaderFn params FaultAbortMessageHeader)))
  \/ (RandInt params = None /\
      outcome (InjectFault params st) = Panic nilDeref).
Proof.
  destruct (addressPasses params) eqn:PA.
  2:{ left. rewrite (InjectFault_address_fails _ _ PA). reflexivity. }
  destruct (methodPasses params) eqn:PM.
  2:{ left. rewrite (InjectFault_method_fails _ _ PA PM). reflexivity. }
  rewrite (InjectFault_checks_pass _ _ PA PM). run_simpl.
  assert (AB :
    outcome (abortPhase params (mkRandSingleton (RandInt params)) st)
      = Ret (ResumeFn params)
    \/ (exists code,
          outcome (abortPhase params (mkRandSingleton (RandInt params)) st)
          = Ret (ResponseFn params code
                   (GetHeaderFn params FaultAbortMessageHeader)))
    \/ (RandInt params = None /\
        outcome (abortPhase params (mkRandSingleton (RandInt params)) st)
        = Panic nilDeref)).
  { destruct (abortPhase_runs params (mkRandSingleton (RandInt params)) st)
      as [E | [(w & E) | [(code & E) | (N & E)]]]; rewrite E; run_simpl.
    - left; reflexivity.
    - left; reflexivity.
    - right; left; exists code; reflexivity.
    - right; right; split; [exact N | reflexivity]. }
  destruct (delayPhase_runs params st)
    as [(_ & E) | [(d & _ & _ & E) | [(w & E) | (N & E)]]];
    rewrite E; run_simpl.
  - exact AB.
  - exact AB.
  - left; reflexivity.
  - right; right; split; [exact N | reflexivity].
Qed.

(** With an injected draw the decision never panics and never touches the
    store. *)
Lemma InjectFault_injected_total params st l :
  RandInt params = Some l ->
  final (InjectFault params st) = st /\
  (outcome (InjectFault params st) = Ret (ResumeFn params)
   \/ exists code,
        outcome (InjectFault params st) =
        Ret (ResponseFn params code
               (GetHeaderFn params FaultAbortMessageHeader))).
Proof.
  intros I. split.
  - destruct (addressPasses params) eqn:PA.
    2:{ rewrite (InjectFault_address_fails _ _ PA). reflexivity. }
    destruct (methodPasses params) eqn:PM.
    2:{ rewrite (InjectFault_method_fails _ _ PA PM). reflexivity. }
    rewrite (InjectFault_checks_pass _ _ PA PM). run_simpl.
    assert (AB :
      final (abortPhase params (mkRandSingleton (RandInt params)) st) = st).
    { destruct (abortPhase_runs params (mkRandSingleton (RandInt params)) st)
        as [E | [(w & E) | [(code & E) | (N & E)]]];
        try (rewrite E; reflexivity).
      cbn in N. congruence. }
    destruct (delayPhase_runs params st)
      as [(_ & E) | [(d & _ & _ & E) | [(w & E) | (N & E)]]];
      try (rewrite E; run_simpl; first [exact AB | reflexivity]).
    congruence.
  - destruct (InjectFault_outcomes params st) as [E | [E | (N & _)]].
    + left; exact E.
    + right; exact E.
    + congruence.
Qed.

(** The header names that are looked up before the abort percentage. *)
Lemma distinct_abort_percentage :
  headersDistinct = true ->
  (FaultServerAddressHeader =? FaultAbortPercentageHeader)%string = false /\
  (FaultServerMethodHeader =? FaultAbortPercentageHeader)%string = false /\
  (FaultDelayMsHeader =? FaultAbortPercentageHeader)%string = false /\
  (FaultDelayPercentageHeader =? FaultAbortPercentageHeader)%string = false /\
  (FaultAbortCodeHeader =? FaultAbortPercentageHeader)%string = false.
Proof.
  unfold headersDistinct. cbn [distinct existsb]. intros H.
  repeat match goal with
         | H : _ && _ = true |- _ =>
             apply andb_true_iff in H; destruct H as [? H]
         | H : negb _ = true |- _ => apply negb_true_iff in H
         | H : _ || _ = false |- _ =>
             apply orb_false_iff in H; destruct H as [? ?]
         end.
  repeat split; assumption.
Qed.

(** A decision in which the abort percentage header is looked up has
    passed both checks and fallen through the delay block. *)
Lemma abort_check_reached params st :
  headersDistinct = true ->
  lookedUp FaultAbortPercentageHeader (trace (InjectFault params st)) = true ->
  addressPasses params = true /\ methodPasses params = true /\
  exists pre,
    InjectFault params st =
    (outcome (abortPhase params (mkRandSingleton (RandInt params)) st),
     final (abortPhase params (mkRandSingleton (RandInt params)) st),
     (pre ++ trace (abortPhase params (mkRandSingleton (RandInt params)) st))%list)
    /\ resumed pre = false /\ responded pre = false.
Proof.
  intros D L.
  destruct (distinct_abort_percentage D) as (Da & Dm & Dd & Dp & _).
  destruct (addressPasses params) eqn:PA.
  2:{ rewrite (InjectFault_address_fails _ _ PA) in L.
      cbn in L. rewrite Da in L. discriminate. }
  destruct (methodPasses params) eqn:PM.
  2:{ rewrite (InjectFault_method_fails _ _ PA PM) in L.
      cbn in L. rewrite Da, Dm in L. discriminate. }
  split; [reflexivity|]. split; [reflexivity|].
  rewrite (InjectFault_checks_pass _ _ PA PM) in *.
  destruct (delayPhase_runs params st)
    as [(_ & E) | [(d & _ & _ & E) | [(w & E) | (N & E)]]];
    rewrite E in *; run_simpl.
  - eexists [_; _; _]. split; [reflexivity|]. split; reflexivity.
  - eexists [_; _; _; _; _]. split; [reflexivity|]. split; reflexivity.
  - cbn in L. rewrite Da, Dm, Dd, Dp in L. discriminate.
  - cbn in L. rewrite Da, Dm, Dd, Dp in L. discriminate.
Qed.

Lemma existsb_app_false {A} (f : A -> bool) l1 l2 :
  existsb f l1 = false -> existsb f l2 = false ->
  existsb f (l1 ++ l2) = false.
Proof. intros H1 H2. rewrite existsb_app, H1, H2. reflexivity. Qed.

(** ** The properties of the decision engine *)

(** C3. With a cached draw [draw] (the cell that [randInt] points to), the
    selection predicate on a percentage header that holds an integer [p] of
    [0,100] returns exactly [draw < p], with no message, after the one
    lookup of the header; for a draw of [[0,100)] a percentage of 100 always
    selects and a percentage of 0 never does.  An absent (empty) percentage
    header always selects, as a percentage of 100 does, whatever the
    [randSingleton] is. *)
Theorem isSelected_iff_draw_below_percentage
    (hdr : string) (get : GetHeaderFnT) (l : nat) (st : Store) (draw : Z) :
  heap st l = draw ->
  0 <= draw < 100 ->
  (forall p,
      Go.Atoi (get hdr) = (p, None) ->
      0 <= p <= 100 ->
      isSelected hdr get (mkRandSingleton (Some l)) st =
        (Ret (draw <? p, ""), st, [EvGetHeader hdr])
      /\ ((draw <? p) = true <-> draw < p)
      /\ (p = 100 -> (draw <? p) = true)
      /\ (p = 0 -> (draw <? p) = false))
  /\ (get hdr = "" ->
      forall sr,
        isSelected hdr get sr st = (Ret (true, ""), st, [EvGetHeader hdr])
        /\ (draw <? 100) = true).
Proof.
  intros Hd Hr. split.
  - intros p A R. split; [|split; [|split]].
    + rewrite <- Hd. apply isSelected_injected; assumption.
    + apply Z.ltb_lt.
    + intros ->. apply Z.ltb_lt. lia.
    + intros ->. apply Z.ltb_ge. lia.
  - intros E sr. split.
    + apply isSelected_absent, E.
    + apply Z.ltb_lt. lia.
Qed.

(** C4. Address check: when the server-address header is empty, or differs
    from the service's address with the suffix [.svc.cluster.local]
    stripped, [InjectFault] returns the result of [ResumeFn], and its whole
    trace is the lookup of the server-address header followed by the call
    of [ResumeFn]: no other header is consulted, nothing sleeps, and
    [ResponseFn] is not called; the store is untouched. *)
Theorem address_check_resumes (params : InjectFaultParams) (st : Store) :
  GetHeaderFn params FaultServerAddressHeader = ""
  \/ GetHeaderFn params FaultServerAddressHeader
     <> Go.TrimSuffix (Address params) ".svc.cluster.local" ->
  InjectFault params st =
    (Ret (ResumeFn params), st,
     [EvGetHeader FaultServerAddressHeader; EvResume])
  /\ sleeps (trace (InjectFault params st)) = []
  /\ responded (trace (InjectFault params st)) = false.
Proof.
  intros H.
  assert (PA : addressPasses params = false).
  { unfold addressPasses. cbv zeta. apply negb_false_iff, orb_true_iff.
    destruct H as [E | NE].
    - left. rewrite E. reflexivity.
    - right. apply negb_true_iff, String.eqb_neq, NE. }
  rewrite (InjectFault_address_fails _ _ PA). repeat split.
Qed.

(** C5. Method check: once the address check has passed, a server-method
    header that is not empty and differs from the method being called makes
    [InjectFault] return the result of [ResumeFn] after the two lookups,
    with no sleep and no call of [ResponseFn]; with an empty server-method
    header the decision goes on to the delay block, whatever the method
    is. *)
Theorem method_check (params : InjectFaultParams) (st : Store) :
  addressPasses params = true ->
  (GetHeaderFn params FaultServerMethodHeader <> "" ->
   GetHeaderFn params FaultServerMethodHeader <> Method params ->
   InjectFault params st =
     (Ret (ResumeFn params), st,
      [EvGetHeader FaultServerAddressHeader;
       EvGetHeader FaultServerMethodHeader; EvResume])
   /\ sleeps (trace (InjectFault params st)) = []
   /\ responded (trace (InjectFault params st)) = false)
  /\ (GetHeaderFn params FaultServerMethodHeader = "" ->
      InjectFault params st =
        (outcome (delayPhase params st), final (delayPhase params st),
         [EvGetHeader FaultServerAddressHeader;
          EvGetHeader FaultServerMethodHeader]
           ++ trace (delayPhase params st))%list).
Proof.
  intros PA. split.
  - intros NE ND.
    assert (PM : methodPasses params = false).
    { unfold methodPasses. cbv zeta.
      apply String.eqb_neq in NE. apply String.eqb_neq in ND.
      rewrite NE, ND. reflexivity. }
    rewrite (InjectFault_method_fails _ _ PA PM). repeat split.
  - intros E. apply InjectFault_checks_pass; [exact PA|].
    unfold methodPasses. cbv zeta. rewrite E. reflexivity.
Qed.

(** C6. Abort end to end: in a decision whose address and method checks
    pass, whose abort-code header holds an integer [code] of
    [[AbortCodeMin, AbortCodeMax]] and whose abort percentage check takes
    place and selects, [InjectFault] returns exactly the result of
    [ResponseFn] at [code] and the value of the abort-message header; the
    call of [ResponseFn] is the last event, and [ResumeFn] is never
    called. *)
Theorem abort_end_to_end (params : InjectFaultParams) (st : Store) (code : Z) :
  headersDistinct = true ->
  addressPasses params = true ->
  methodPasses params = true ->
  Go.Atoi (GetHeaderFn params FaultAbortCodeHeader) = (code, None) ->
  AbortCodeMin params <= code <= AbortCodeMax params ->
  lookedUp FaultAbortPercentageHeader (trace (InjectFault params st)) = true ->
  selects FaultAbortPercentageHeader params st = true ->
  outcome (InjectFault params st) =
    Ret (ResponseFn params code (GetHeaderFn params FaultAbortMessageHeader))
  /\ (exists t,
        trace (InjectFault params st) =
        (t ++ [EvRespond code
                 (GetHeaderFn params FaultAbortMessageHeader)])%list)
  /\ resumed (trace (InjectFault params st)) = false.
Proof.
  intros D _ _ A R L S.
  destruct (abort_check_reached _ _ D L) as (_ & _ & pre & E & Rs & _).
  destruct (selects_run _ _ _ S) as [msg SA].
  rewrite E, (abortPhase_responds _ _ _ _ _ SA A R). run_simpl.
  split; [reflexivity|]. split.
  - eexists (pre ++ [_; _; _])%list. rewrite <- app_assoc. reflexivity.
  - apply existsb_app_false; [exact Rs | reflexivity].
Qed.

(** C7. Abort code out of range: in a decision whose abort-code header
    holds an integer outside [[AbortCodeMin, AbortCodeMax]] and whose abort
    percentage check takes place and selects, [InjectFault] logs the
    warning that the code is outside of the valid range and returns the
    result of [ResumeFn]; [ResponseFn] is never called. *)
Theorem abort_code_out_of_range_resumes
    (params : InjectFaultParams) (st : Store) (code : Z) :
  headersDistinct = true ->
  Go.Atoi (GetHeaderFn params FaultAbortCodeHeader) = (code, None) ->
  code < AbortCodeMin params \/ AbortCodeMax params < code ->
  lookedUp FaultAbortPercentageHeader (trace (InjectFault params st)) = true ->
  selects FaultAbortPercentageHeader params st = true ->
  outcome (InjectFault params st) = Ret (ResumeFn params)
  /\ warned (CallerName params ++ ": provided abort code " ++ Go.Itoa code
               ++ " is outside of the valid range")
            (trace (InjectFault params st)) = true
  /\ responded (trace (InjectFault params st)) = false.
Proof.
  intros D A R L S.
  destruct (abort_check_reached _ _ D L) as (_ & _ & pre & E & _ & Rs).
  destruct (selects_run _ _ _ S) as [msg SA].
  rewrite E, (abortPhase_out_of_range _ _ _ _ _ SA A R). run_simpl.
  split; [reflexivity|]. split.
  - unfold warned. rewrite existsb_app. apply orb_true_iff. right.
    cbn. rewrite String.eqb_refl. reflexivity.
  - apply existsb_app_false; [exact Rs | reflexivity].
Qed.

(** ** Changing the delay header *)

Lemma isSelected_ext hdr get get' sr :
  get hdr = get' hdr ->
  isSelected hdr get sr = isSelected hdr get' sr.
Proof.
  intros E. unfold isSelected, call_GetHeaderFn. rewrite E. reflexivity.
Qed.

Lemma distinct_delay_ms :
  headersDistinct = true ->
  (FaultServerAddressHeader =? FaultDelayMsHeader)%string = false /\
  (FaultServerMethodHeader =? FaultDelayMsHeader)%string = false /\
  (FaultDelayPercentageHeader =? FaultDelayMsHeader)%string = false /\
  (FaultAbortCodeHeader =? FaultDelayMsHeader)%string = false /\
  (FaultAbortMessageHeader =? FaultDelayMsHeader)%string = false /\
  (FaultAbortPercentageHeader =? FaultDelayMsHeader)%string = false.
Proof.
  unfold headersDistinct. cbn [distinct existsb]. intros H.
  repeat match goal with
         | H : _ && _ = true |- _ =>
             apply andb_true_iff in H; destruct H as [? H]
         | H : negb _ = true |- _ => apply negb_true_iff in H
         | H : _ || _ = false |- _ =>
             apply orb_false_iff in H; destruct H as [? ?]
         end.
  repeat split; first [assumption | rewrite String.eqb_sym; assumption].
Qed.

(** The abort block does not read the delay header. *)
Lemma abortPhase_withHeader params value sr st :
  headersDistinct = true ->
  abortPhase (withHeader FaultDelayMsHeader value params) sr st =
  abortPhase params sr st.
Proof.
  intros D. destruct (distinct_delay_ms D) as (_ & _ & _ & Dc & Dm & Dp).
  unfold abortPhase, call_GetHeaderFn, call_ResumeFn, call_ResponseFn.
  cbn [GetHeaderFn CallerName AbortCodeMin AbortCodeMax ResumeFn ResponseFn
       withHeader].
  rewrite Dc, Dm.
  rewrite (isSelected_ext FaultAbortPercentageHeader
             (fun k => if (k =? FaultDelayMsHeader)%string then value
                       else GetHeaderFn params k)
             (GetHeaderFn params) sr)
    by (cbv beta; rewrite Dp; reflexivity).
  reflexivity.
Qed.

(** A selected delay that fits [time.Duration] is slept, whatever its
    sign, and the abort block follows. *)
Lemma selected_delay_is_slept params st delay :
  addressPasses params = true ->
  methodPasses params = true ->
  Go.Atoi (GetHeaderFn params FaultDelayMsHeader) = (delay, None) ->
  selects FaultDelayPercentageHeader params st = true ->
  InjectFault params st =
  (outcome (abortPhase params (mkRandSingleton (RandInt params)) st),
   final (abortPhase params (mkRandSingleton (RandInt params)) st),
   [EvGetHeader FaultServerAddressHeader;
    EvGetHeader FaultServerMethodHeader;
    EvGetHeader FaultDelayMsHeader;
    EvGetHeader FaultDelayPercentageHeader;
    EvSleep (sleepFnOf params) (Go.DurationMs delay)]
     ++ trace (abortPhase params (mkRandSingleton (RandInt params)) st))%list.
Proof.
  intros PA PM A S.
  destruct (selects_run _ _ _ S) as [msg SD].
  rewrite (InjectFault_checks_pass _ _ PA PM),
    (delayPhase_sleeps _ _ _ _ SD A).
  reflexivity.
Qed.

(** The checks before the sleep do not read the delay header either. *)
Lemma checks_withHeader params value st :
  headersDistinct = true ->
  addressPasses (withHeader FaultDelayMsHeader value params)
    = addressPasses params
  /\ methodPasses (withHeader FaultDelayMsHeader value params)
     = methodPasses params
  /\ selects FaultDelayPercentageHeader
       (withHeader FaultDelayMsHeader value params) st
     = selects FaultDelayPercentageHeader params st
  /\ GetHeaderFn (withHeader FaultDelayMsHeader value params)
       FaultDelayMsHeader = value.
Proof.
  intros D. destruct (distinct_delay_ms D) as (Da & Dm & Dp & _).
  unfold addressPasses, methodPasses, selects.
  cbn [GetHeaderFn Address Method RandInt withHeader].
  rewrite Da, Dm, String.eqb_refl.
  rewrite (isSelected_ext FaultDelayPercentageHeader
             (fun k => if (k =? FaultDelayMsHeader)%string then value
                       else GetHeaderFn params k)
             (GetHeaderFn params) _)
    by (cbv beta; rewrite Dp; reflexivity).
  repeat split.
Qed.

(** No overflow in [time.Duration(n) * time.Millisecond]. *)
Lemma DurationMs_exact n :
  Go.minInt <= n * Go.Millisecond <= Go.maxInt ->
  Go.DurationMs n = n * Go.Millisecond.
Proof.
  unfold Go.DurationMs, Go.wrap64, Go.minInt, Go.maxInt. intros H.
  rewrite Z.mod_small; lia.
Qed.

(** C8, amended. Delay end to end: in a decision whose address and method
    checks pass, whose delay-ms header holds a non-negative integer [N]
    with [N] milliseconds within the range of [time.Duration]
    ([N * 1000000 <= 2^63 - 1]), whose delay percentage check selects and
    whose abort-code header is empty, [InjectFault] calls the sleep
    function exactly once, with [N] milliseconds, and then returns the
    result of [ResumeFn]. *)
Theorem delay_end_to_end (params : InjectFaultParams) (st : Store) (N : Z) :
  addressPasses params = true ->
  methodPasses params = true ->
  Go.Atoi (GetHeaderFn params FaultDelayMsHeader) = (N, None) ->
  0 <= N ->
  N * Go.Millisecond <= Go.maxInt ->
  selects FaultDelayPercentageHeader params st = true ->
  GetHeaderFn params FaultAbortCodeHeader = "" ->
  InjectFault params st =
    (Ret (ResumeFn params), st,
     [EvGetHeader FaultServerAddressHeader;
      EvGetHeader FaultServerMethodHeader;
      EvGetHeader FaultDelayMsHeader;
      EvGetHeader FaultDelayPercentageHeader;
      EvSleep (sleepFnOf params) (N * Go.Millisecond);
      EvGetHeader FaultAbortCodeHeader;
      EvResume])
  /\ sleeps (trace (InjectFault params st)) =
       [(sleepFnOf params, N * Go.Millisecond)].
Proof.
  intros PA PM A N0 NU S E.
  destruct (selects_run _ _ _ S) as [msg SD].
  assert (X : InjectFault params st =
    (Ret (ResumeFn params), st,
     [EvGetHeader FaultServerAddressHeader;
      EvGetHeader FaultServerMethodHeader;
      EvGetHeader FaultDelayMsHeader;
      EvGetHeader FaultDelayPercentageHeader;
      EvSleep (sleepFnOf params) (N * Go.Millisecond);
      EvGetHeader FaultAbortCodeHeader;
      EvResume])).
  { rewrite (InjectFault_checks_pass _ _ PA PM),
      (delayPhase_sleeps _ _ _ _ SD A), (abortPhase_absent _ _ _ E).
    run_simpl. rewrite DurationMs_exact; [reflexivity|].
    unfold Go.minInt, Go.Millisecond in *. lia. }
  rewrite X. split; reflexivity.
Qed.

(** C10, amended. The lower bound of the delay is not enforced: in a
    decision whose address and method checks pass, whose delay-ms header
    holds a negative integer [N] with [N] milliseconds within the range of
    [time.Duration] ([- 2^63 <= N * 1000000]) and whose delay percentage
    check selects, [InjectFault] logs nothing, calls the sleep function
    once with the negative duration of [N] milliseconds, and goes on with
    the abort block.  This is exactly the run of a non-negative delay: with
    the delay-ms header changed to any non-negative integer [M] of that
    range, the run differs in the duration of the sleep only. *)
Theorem negative_delay_is_slept (params : InjectFaultParams) (st : Store) (N : Z) :
  headersDistinct = true ->
  addressPasses params = true ->
  methodPasses params = true ->
  Go.Atoi (GetHeaderFn params FaultDelayMsHeader) = (N, None) ->
  N < 0 ->
  Go.minInt <= N * Go.Millisecond ->
  selects FaultDelayPercentageHeader params st = true ->
  let rest := abortPhase params (mkRandSingleton (RandInt params)) st in
  N * Go.Millisecond < 0
  /\ InjectFault params st =
     (outcome rest, final rest,
      [EvGetHeader FaultServerAddressHeader;
       EvGetHeader FaultServerMethodHeader;
       EvGetHeader FaultDelayMsHeader;
       EvGetHeader FaultDelayPercentageHeader;
       EvSleep (sleepFnOf params) (N * Go.Millisecond)]
        ++ trace rest)%list
  /\ forall value M,
       Go.Atoi value = (M, None) ->
       0 <= M ->
       M * Go.Millisecond <= Go.maxInt ->
       InjectFault (withHeader FaultDelayMsHeader value params) st =
       (outcome rest, final rest,
        [EvGetHeader FaultServerAddressHeader;
         EvGetHeader FaultServerMethodHeader;
         EvGetHeader FaultDelayMsHeader;
         EvGetHeader FaultDelayPercentageHeader;
         EvSleep (sleepFnOf params) (M * Go.Millisecond)]
          ++ trace rest)%list.
Proof.
  intros D PA PM A N0 NL S rest.
  split; [unfold Go.Millisecond; lia|]. split.
  - rewrite (selected_delay_is_slept _ _ _ PA PM A S).
    rewrite DurationMs_exact; [reflexivity|].
    unfold Go.maxInt, Go.Millisecond in *. lia.
  - intros value M AM M0 MU.
    destruct (checks_withHeader params value st D) as (EA & EM & ES & EV).
    rewrite (selected_delay_is_slept
               (withHeader FaultDelayMsHeader value params) st M);
      [| rewrite EA; exact PA | rewrite EM; exact PM
       | rewrite EV; exact AM | rewrite ES; exact S].
    cbn [RandInt withHeader]. rewrite (abortPhase_withHeader _ _ _ _ D).
    rewrite DurationMs_exact; [reflexivity|].
    unfold Go.minInt, Go.Millisecond in *. lia.
Qed.

(** ** The draw *)

(** In the production configuration ([RandInt] is nil) the first percentage
    check on a well-formed percentage panics: here in the delay block. *)
Lemma delay_check_panics_on_nil params st p :
  RandInt params = None ->
  addressPasses params = true ->
  methodPasses params = true ->
  GetHeaderFn params FaultDelayMsHeader <> "" ->
  Go.Atoi (GetHeaderFn params FaultDelayPercentageHeader) = (p, None) ->
  0 <= p <= 100 ->
  InjectFault params st =
  (Panic nilDeref, afterDraw st,
   [EvGetHeader FaultServerAddressHeader; EvGetHeader FaultServerMethodHeader;
    EvGetHeader FaultDelayMsHeader; EvGetHeader FaultDelayPercentageHeader;
    EvRandIntn 100]).
Proof.
  intros N PA PM NE A R.
  rewrite (InjectFault_checks_pass _ _ PA PM).
  rewrite (delayPhase_check_panics params st _ _ _ NE
             (eq_trans (f_equal (fun r => isSelected _ _ (mkRandSingleton r) st) N)
                       (isSelected_nil _ _ st p A R))).
  reflexivity.
Qed.

(** The same in the abort block, when there is no delay. *)
Lemma abort_check_panics_on_nil params st p :
  RandInt params = None ->
  addressPasses params = true ->
  methodPasses params = true ->
  GetHeaderFn params FaultDelayMsHeader = "" ->
  GetHeaderFn params FaultAbortCodeHeader <> "" ->
  Go.Atoi (GetHeaderFn params FaultAbortPercentageHeader) = (p, None) ->
  0 <= p <= 100 ->
  InjectFault params st =
  (Panic nilDeref, afterDraw st,
   [EvGetHeader FaultServerAddressHeader; EvGetHeader FaultServerMethodHeader;
    EvGetHeader FaultDelayMsHeader; EvGetHeader FaultAbortCodeHeader;
    EvGetHeader FaultAbortPercentageHeader; EvRandIntn 100]).
Proof.
  intros N PA PM E NE A R.
  rewrite (InjectFault_checks_pass _ _ PA PM), (delayPhase_absent _ _ E).
  rewrite (abortPhase_check_panics params _ st _ _ _ NE
             (eq_trans (f_equal (fun r => isSelected _ _ (mkRandSingleton r) st) N)
                       (isSelected_nil _ _ st p A R))).
  reflexivity.
Qed.

(** With an injected draw, the two percentage checks of a decision compare
    the same cell, which the decision never writes. *)
Lemma injected_draw_is_shared params st l pd pa :
  RandInt params = Some l ->
  Go.Atoi (GetHeaderFn params FaultDelayPercentageHeader) = (pd, None) ->
  0 <= pd <= 100 ->
  Go.Atoi (GetHeaderFn params FaultAbortPercentageHeader) = (pa, None) ->
  0 <= pa <= 100 ->
  selects FaultDelayPercentageHeader params st = (heap st l <? pd)
  /\ selects FaultAbortPercentageHeader params st = (heap st l <? pa)
  /\ final (InjectFault params st) = st.
Proof.
  intros I Ad Rd Aa Ra. unfold selects. rewrite I.
  rewrite (isSelected_injected _ _ l st pd Ad Rd),
    (isSelected_injected _ _ l st pa Aa Ra). run_simpl.
  split; [destruct (heap st l <? pd); reflexivity|].
  split; [destruct (heap st l <? pa); reflexivity|].
  apply (InjectFault_injected_total params st l I).
Qed.

(** ** Further properties of the decision engine *)

(** The runs of the abort block, with the conditions of each. *)
Lemma abortPhase_classified params st :
  let sr := mkRandSingleton (RandInt params) in
  (GetHeaderFn params FaultAbortCodeHeader = "" /\
   abortPhase params sr st =
   (Ret (ResumeFn params), st, [EvGetHeader FaultAbortCodeHeader; EvResume]))
  \/ (GetHeaderFn params FaultAbortCodeHeader <> "" /\
      exists w,
        abortPhase params sr st =
        (Ret (ResumeFn params), st,
         [EvGetHeader FaultAbortCodeHeader;
          EvGetHeader FaultAbortPercentageHeader; EvWarn w; EvResume]))
  \/ (exists code,
        Go.Atoi (GetHeaderFn params FaultAbortCodeHeader) = (code, None) /\
        AbortCodeMin params <= code <= AbortCodeMax params /\
        selects FaultAbortPercentageHeader params st = true /\
        abortPhase params sr st =
        (Ret (ResponseFn params code
                (GetHeaderFn params FaultAbortMessageHeader)), st,
         [EvGetHeader FaultAbortCodeHeader;
          EvGetHeader FaultAbortPercentageHeader;
          EvGetHeader FaultAbortMessageHeader;
          EvRespond code (GetHeaderFn params FaultAbortMessageHeader)]))
  \/ (RandInt params = None /\
      GetHeaderFn params FaultAbortCodeHeader <> "" /\
      GetHeaderFn params FaultAbortPercentageHeader <> "" /\
      abortPhase params sr st =
      (Panic nilDeref, afterDraw st,
       [EvGetHeader FaultAbortCodeHeader;
        EvGetHeader FaultAbortPercentageHeader; EvRandIntn 100])).
Proof.
  intros sr.
  destruct (String.eqb_spec (GetHeaderFn params FaultAbortCodeHeader) "")
    as [E|NE].
  { left. split; [exact E | apply abortPhase_absent, E]. }
  destruct (isSelected_runs FaultAbortPercentageHeader (GetHeaderFn params)
              sr st) as [(b & msg & S) | (N & S)].
  2:{ right; right; right. split; [exact N|]. split; [exact NE|]. split.
      - intros E. rewrite (isSelected_absent _ _ sr st E) in S. discriminate.
      - apply (abortPhase_check_panics _ _ _ _ _ _ NE S). }
  destruct b.
  2:{ right; left. split; [exact NE|]. eexists.
      apply (abortPhase_not_selected _ _ _ _ NE S). }
  destruct (Go.Atoi (GetHeaderFn params FaultAbortCodeHeader))
    as [code [e|]] eqn:A.
  { right; left. split; [exact NE|]. eexists.
    apply (abortPhase_not_integer _ _ _ _ _ _ NE S A). }
  destruct (Z_lt_dec code (AbortCodeMin params)) as [L|L].
  { right; left. split; [exact NE|]. eexists.
    apply (abortPhase_out_of_range _ _ _ _ _ S A). left; exact L. }
  destruct (Z_lt_dec (AbortCodeMax params) code) as [U|U].
  { right; left. split; [exact NE|]. eexists.
    apply (abortPhase_out_of_range _ _ _ _ _ S A). right; exact U. }
  right; right; left. exists code.
  split; [reflexivity|]. split; [lia|]. split.
  - unfold selects. fold sr. rewrite S. reflexivity.
  - apply (abortPhase_responds _ _ _ _ _ S A). lia.
Qed.

(** The runs of the delay block that end the decision, with the condition
    of the panic. *)
Lemma delayPhase_classified params st :
  let r := abortPhase params (mkRandSingleton (RandInt params)) st in
  (GetHeaderFn params FaultDelayMsHeader = "" /\
   delayPhase params st =
   (outcome r, final r, EvGetHeader FaultDelayMsHeader :: trace r))
  \/ (exists delay,
        Go.Atoi (GetHeaderFn params FaultDelayMsHeader) = (delay, None) /\
        selects FaultDelayPercentageHeader params st = true /\
        delayPhase params st =
        (outcome r, final r,
         [EvGetHeader FaultDelayMsHeader;
          EvGetHeader FaultDelayPercentageHeader;
          EvSleep (sleepFnOf params) (Go.DurationMs delay)] ++ trace r)%list)
  \/ (GetHeaderFn params FaultDelayMsHeader <> "" /\
      exists w,
        delayPhase params st =
        (Ret (ResumeFn params), st,
         [EvGetHeader FaultDelayMsHeader;
          EvGetHeader FaultDelayPercentageHeader; EvWarn w; EvResume]))
  \/ (RandInt params = None /\
      GetHeaderFn params FaultDelayMsHeader <> "" /\
      GetHeaderFn params FaultDelayPercentageHeader <> "" /\
      delayPhase params st =
      (Panic nilDeref, afterDraw st,
       [EvGetHeader FaultDelayMsHeader;
        EvGetHeader FaultDelayPercentageHeader; EvRandIntn 100])).
Proof.
  intros r.
  destruct (String.eqb_spec (GetHeaderFn params FaultDelayMsHeader) "")
    as [E|NE].
  { left. split; [exact E | apply delayPhase_absent, E]. }
  destruct (isSelected_runs FaultDelayPercentageHeader (GetHeaderFn params)
              (mkRandSingleton (RandInt params)) st)
    as [(b & msg & S) | (N & S)].
  2:{ right; right; right. split; [exact N|]. split; [exact NE|]. split.
      - intros E. rewrite (isSelected_absent _ _ _ st E) in S. discriminate.
      - apply (delayPhase_check_panics _ _ _ _ _ NE S). }
  destruct b.
  2:{ right; right; left. split; [exact NE|]. eexists.
      apply (delayPhase_not_selected _ _ _ NE S). }
  destruct (Go.Atoi (GetHeaderFn params FaultDelayMsHeader))
    as [delay [e|]] eqn:A.
  { right; right; left. split; [exact NE|]. eexists.
    apply (delayPhase_not_integer _ _ _ _ _ NE S A). }
  right; left. exists delay. split; [reflexivity|]. split.
  - unfold selects. rewrite S. reflexivity.
  - apply (delayPhase_sleeps _ _ _ _ S A).
Qed.

(** Case analysis over every run of [InjectFault]: the goal and the
    hypotheses are rewritten with the run of each case. *)
Ltac decision_cases params st :=
  let PA := fresh "PA" in
  let PM := fresh "PM" in
  let E := fresh "E" in
  let EA := fresh "EA" in
  destruct (addressPasses params) eqn:PA;
  [ destruct (methodPasses params) eqn:PM;
    [ rewrite (InjectFault_checks_pass params st PA PM) in *;
      destruct (delayPhase_classified params st)
        as [(? & E) | [(? & ? & ? & E) | [(? & ? & E) | (? & ? & ? & E)]]];
      rewrite E in *; clear E;
      try (destruct (abortPhase_classified params st)
             as [(? & EA) | [(? & ? & EA) | [(? & ? & ? & ? & EA)
                                            | (? & ? & ? & EA)]]];
           rewrite EA in *; clear EA)
    | rewrite (InjectFault_method_fails params st PA PM) in * ]
  | rewrite (InjectFault_address_fails params st PA) in * ];
  run_simpl.

(** X1. With an injected draw ([RandInt] not nil), [InjectFault] never
    panics: it returns the result of [ResumeFn], or the result of
    [ResponseFn] at an abort code of the range and the abort message; it
    never reads the random source and leaves the store as it was. *)
Theorem injected_draw_never_panics (params : InjectFaultParams) (st : Store)
    (l : nat) :
  RandInt params = Some l ->
  final (InjectFault params st) = st
  /\ drew (trace (InjectFault params st)) = false
  /\ (outcome (InjectFault params st) = Ret (ResumeFn params)
      \/ exists code,
           Go.Atoi (GetHeaderFn params FaultAbortCodeHeader) = (code, None)
           /\ AbortCodeMin params <= code <= AbortCodeMax params
           /\ outcome (InjectFault params st) =
              Ret (ResponseFn params code
                     (GetHeaderFn params FaultAbortMessageHeader))).
Proof.
  intros I.
  decision_cases params st; try congruence;
    repeat split; try reflexivity;
    first [left; reflexivity | right; eexists; eauto].
Qed.

(** X2. Without percentage headers the production configuration is safe:
    when the delay-percentage and the abort-percentage headers are both
    empty, [InjectFault] does not panic whatever [RandInt] is, does not
    read the random source, and leaves the store as it was. *)
Theorem no_percentage_never_panics (params : InjectFaultParams) (st : Store) :
  GetHeaderFn params FaultDelayPercentageHeader = "" ->
  GetHeaderFn params FaultAbortPercentageHeader = "" ->
  final (InjectFault params st) = st
  /\ drew (trace (InjectFault params st)) = false
  /\ exists r, outcome (InjectFault params st) = Ret r.
Proof.
  intros ED EA.
  decision_cases params st; try congruence;
    repeat split; try reflexivity; eexists; reflexivity.
Qed.

(** X3. Exactly one callback: in every run of [InjectFault] that returns,
    exactly one of [ResumeFn] and [ResponseFn] has been called, exactly
    once, and that call is the last event; in a run that panics neither
    has been called. *)
Theorem one_callback_per_decision (params : InjectFaultParams) (st : Store) :
  match outcome (InjectFault params st) with
  | Ret _ =>
      callbacks (trace (InjectFault params st)) = 1%nat
      /\ isCallback (last (trace (InjectFault params st)) (EvWarn "")) = true
  | Panic _ => callbacks (trace (InjectFault params st)) = 0%nat
  end.
Proof.
  decision_cases params st; try (split; reflexivity); reflexivity.
Qed.

(** X4. At most one sleep: a run of [InjectFault] calls the sleep function
    at most once, and only when the delay-ms header holds an integer and
    the delay percentage check selects; the duration is then the wrapped
    product of that integer with [time.Millisecond], and the function is
    [*params.SleepFn] when the pointer is set and [time.Sleep] otherwise. *)
Theorem at_most_one_sleep (params : InjectFaultParams) (st : Store) :
  sleeps (trace (InjectFault params st)) = []
  \/ exists delay,
       Go.Atoi (GetHeaderFn params FaultDelayMsHeader) = (delay, None)
       /\ selects FaultDelayPercentageHeader params st = true
       /\ sleeps (trace (InjectFault params st)) =
          [(match SleepFn params with Some f => f | None => time_Sleep end,
            Go.wrap64 (delay * 1000000))].
Proof.
  decision_cases params st;
    first [left; reflexivity
          | right; eexists; split; [eassumption|]; split; [assumption|];
            reflexivity].
Qed.

(** X5. No abort without the delay: when the delay-ms header is set, a run
    of [InjectFault] that calls [ResponseFn] has slept before, exactly
    once: the delay-ms header holds an integer and the delay percentage
    check has selected. *)
Theorem abort_only_after_delay (params : InjectFaultParams) (st : Store) :
  GetHeaderFn params FaultDelayMsHeader <> "" ->
  responded (trace (InjectFault params st)) = true ->
  exists delay before after,
    Go.Atoi (GetHeaderFn params FaultDelayMsHeader) = (delay, None)
    /\ selects FaultDelayPercentageHeader params st = true
    /\ trace (InjectFault params st) =
       (before ++ EvSleep (sleepFnOf params) (Go.DurationMs delay) :: after)%list
    /\ responded before = false
    /\ sleeps after = [].
Proof.
  intros NE R.
  decision_cases params st; try discriminate; try contradiction.
  eexists _, [_; _; _; _], _. split; [eassumption|]. split; [assumption|].
  repeat split.
Qed.

(** X6. One roll for both checks: with an injected draw, a delay-ms header
    holding an integer, an abort code of the range and both percentages
    integers of [[0,100]], the decision depends on the one draw only.  A
    draw below both percentages sleeps and then aborts; a draw below the
    delay percentage but not below the abort percentage sleeps and then
    resumes; a draw not below the delay percentage resumes at once,
    without looking at the abort headers, even when it is below the abort
    percentage.  A check that does not select logs a warning whose message
    is empty. *)
Theorem one_roll_decides_both (params : InjectFaultParams) (st : Store)
    (l : nat) (delay pd code pa : Z) :
  RandInt params = Some l ->
  addressPasses params = true ->
  methodPasses params = true ->
  Go.Atoi (GetHeaderFn params FaultDelayMsHeader) = (delay, None) ->
  Go.Atoi (GetHeaderFn params FaultDelayPercentageHeader) = (pd, None) ->
  0 <= pd <= 100 ->
  Go.Atoi (GetHeaderFn params FaultAbortCodeHeader) = (code, None) ->
  AbortCodeMin params <= code <= AbortCodeMax params ->
  Go.Atoi (GetHeaderFn params FaultAbortPercentageHeader) = (pa, None) ->
  0 <= pa <= 100 ->
  (heap st l < pd -> heap st l < pa ->
   InjectFault params st =
   (Ret (ResponseFn params code (GetHeaderFn params FaultAbortMessageHeader)),
    st,
    [EvGetHeader FaultServerAddressHeader; EvGetHeader FaultServerMethodHeader;
     EvGetHeader FaultDelayMsHeader; EvGetHeader FaultDelayPercentageHeader;
     EvSleep (sleepFnOf params) (Go.DurationMs delay);
     EvGetHeader FaultAbortCodeHeader; EvGetHeader FaultAbortPercentageHeader;
     EvGetHeader FaultAbortMessageHeader;
     EvRespond code (GetHeaderFn params FaultAbortMessageHeader)]))
  /\ (heap st l < pd -> pa <= heap st l ->
      InjectFault params st =
      (Ret (ResumeFn params), st,
       [EvGetHeader FaultServerAddressHeader;
        EvGetHeader FaultServerMethodHeader;
        EvGetHeader FaultDelayMsHeader; EvGetHeader FaultDelayPercentageHeader;
        EvSleep (sleepFnOf params) (Go.DurationMs delay);
        EvGetHeader FaultAbortCodeHeader;
        EvGetHeader FaultAbortPercentageHeader;
        EvWarn (CallerName params ++ ": "); EvResume]))
  /\ (pd <= heap st l ->
      InjectFault params st =
      (Ret (ResumeFn params), st,
       [EvGetHeader FaultServerAddressHeader;
        EvGetHeader FaultServerMethodHeader;
        EvGetHeader FaultDelayMsHeader; EvGetHeader FaultDelayPercentageHeader;
        EvWarn (CallerName params ++ ": "); EvResume])).
Proof.
  intros I PA PM AD Ad Rd AC RC Aa Ra.
  pose proof (isSelected_injected FaultDelayPercentageHeader
                (GetHeaderFn params) l st pd Ad Rd) as SD.
  pose proof (isSelected_injected FaultAbortPercentageHeader
                (GetHeaderFn params) l st pa Aa Ra) as SA.
  rewrite <- I in SD, SA.
  rewrite (InjectFault_checks_pass _ _ PA PM).
  split; [|split].
  - intros Ld La.
    apply Z.ltb_lt in Ld. apply Z.ltb_lt in La. rewrite Ld in SD.
    rewrite La in SA.
    rewrite (delayPhase_sleeps _ _ _ _ SD AD),
      (abortPhase_responds _ _ _ _ _ SA AC RC).
    reflexivity.
  - intros Ld La.
    apply Z.ltb_lt in Ld. apply Z.ltb_ge in La. rewrite Ld in SD.
    rewrite La in SA.
    rewrite (delayPhase_sleeps _ _ _ _ SD AD),
      (abortPhase_not_selected _ _ _ _
         (proj1 (String.eqb_neq _ _) (Atoi_ok_nonempty _ _ AC)) SA).
    reflexivity.
  - intros Ld. apply Z.ltb_ge in Ld. rewrite Ld in SD.
    rewrite (delayPhase_not_selected _ _ _
               (proj1 (String.eqb_neq _ _) (Atoi_ok_nonempty _ _ AD)) SD).
    reflexivity.
Qed.

(** X7. A delay that is not an integer cancels the whole fault: when the
    delay-ms header is set but is not an integer of the range of [int] and
    the delay percentage check selects, [InjectFault] logs that the delay
    is not a valid integer and resumes; it does not sleep and does not look
    at the abort headers, so a configured abort is not injected either. *)
Theorem invalid_delay_cancels_the_fault (params : InjectFaultParams)
    (st : Store) (n : Z) (e : Go.NumError) :
  addressPasses params = true ->
  methodPasses params = true ->
  GetHeaderFn params FaultDelayMsHeader <> "" ->
  Go.Atoi (GetHeaderFn params FaultDelayMsHeader) = (n, Some e) ->
  selects FaultDelayPercentageHeader params st = true ->
  InjectFault params st =
  (Ret (ResumeFn params), st,
   [EvGetHeader FaultServerAddressHeader; EvGetHeader FaultServerMethodHeader;
    EvGetHeader FaultDelayMsHeader; EvGetHeader FaultDelayPercentageHeader;
    EvWarn (CallerName params ++ ": provided delay "
              ++ GetHeaderFn params FaultDelayMsHeader
              ++ " is not a valid integer");
    EvResume]).
Proof.
  intros PA PM NE A S.
  destruct (selects_run _ _ _ S) as [msg SD].
  rewrite (InjectFault_checks_pass _ _ PA PM),
    (delayPhase_not_integer _ _ _ _ _ NE SD A).
  reflexivity.
Qed.

(** X8. A malformed delay percentage fails open before any draw: when the
    delay-ms header is set and the delay-percentage header is set but is
    not an integer, or is an integer outside [[0,100]], [InjectFault] logs
    the matching warning and resumes, whatever [RandInt] is (nil
    included): the random source is not read, nothing sleeps, and the abort
    headers are not looked at. *)
Theorem malformed_delay_percentage_resumes (params : InjectFaultParams)
    (st : Store) :
  addressPasses params = true ->
  methodPasses params = true ->
  GetHeaderFn params FaultDelayMsHeader <> "" ->
  GetHeaderFn params FaultDelayPercentageHeader <> "" ->
  (forall n e,
      Go.Atoi (GetHeaderFn params FaultDelayPercentageHeader) = (n, Some e) ->
      InjectFault params st =
      (Ret (ResumeFn params), st,
       [EvGetHeader FaultServerAddressHeader;
        EvGetHeader FaultServerMethodHeader;
        EvGetHeader FaultDelayMsHeader; EvGetHeader FaultDelayPercentageHeader;
        EvWarn (CallerName params ++ ": " ++ "provided delay percentage "
                  ++ GetHeaderFn params FaultDelayPercentageHeader
                  ++ " is not a valid integer");
        EvResume]))
  /\ (forall p,
        Go.Atoi (GetHeaderFn params FaultDelayPercentageHeader) = (p, None) ->
        p < 0 \/ 100 < p ->
        InjectFault params st =
        (Ret (ResumeFn params), st,
         [EvGetHeader FaultServerAddressHeader;
          EvGetHeader FaultServerMethodHeader;
          EvGetHeader FaultDelayMsHeader;
          EvGetHeader FaultDelayPercentageHeader;
          EvWarn (CallerName params ++ ": " ++ "provided delay percentage "
                    ++ Go.Itoa p ++ " is outside the valid range of [0-100]");
          EvResume])).
Proof.
  intros PA PM NE NP.
  rewrite (InjectFault_checks_pass _ _ PA PM). split.
  - intros n e A.
    rewrite (delayPhase_not_selected _ _ _ NE
               (isSelected_not_integer _ _ _ st n e NP A)).
    reflexivity.
  - intros p A R.
    rewrite (delayPhase_not_selected _ _ _ NE
               (isSelected_out_of_range _ _ _ st p A R)).
    reflexivity.
Qed.

(** X9. A malformed abort percentage fails open too, and is reported with
    the wording of the delay percentage: with no delay-ms header, an abort
    code set and an abort-percentage header holding an integer [p] outside
    [[0,100]], [InjectFault] resumes after the warning [provided delay
    percentage p is outside the valid range of [0-100]], whatever the abort
    code and [RandInt] are; [ResponseFn] is not called. *)
Theorem malformed_abort_percentage_resumes (params : InjectFaultParams)
    (st : Store) (p : Z) :
  addressPasses params = true ->
  methodPasses params = true ->
  GetHeaderFn params FaultDelayMsHeader = "" ->
  GetHeaderFn params FaultAbortCodeHeader <> "" ->
  Go.Atoi (GetHeaderFn params FaultAbortPercentageHeader) = (p, None) ->
  p < 0 \/ 100 < p ->
  InjectFault params st =
  (Ret (ResumeFn params), st,
   [EvGetHeader FaultServerAddressHeader; EvGetHeader FaultServerMethodHeader;
    EvGetHeader FaultDelayMsHeader; EvGetHeader FaultAbortCodeHeader;
    EvGetHeader FaultAbortPercentageHeader;
    EvWarn (CallerName params ++ ": " ++ "provided delay percentage "
              ++ Go.Itoa p ++ " is outside the valid range of [0-100]");
    EvResume]).
Proof.
  intros PA PM ED NE A R.
  rewrite (InjectFault_checks_pass _ _ PA PM), (delayPhase_absent _ _ ED),
    (abortPhase_not_selected _ _ _ _ NE
       (isSelected_out_of_range _ _ _ st p A R)).
  reflexivity.
Qed.

Lemma substring_whole s : substring 0 (String.length s) s = s.
Proof. induction s as [|c s IH]; [reflexivity|]. cbn. rewrite IH. reflexivity. Qed.

Lemma substring_app_suffix a s :
  substring (String.length a) (String.length s) (a ++ s) = s.
Proof. induction a as [|c a IH]; [apply substring_whole | exact IH]. Qed.

Lemma substring_app_prefix a s :
  substring 0 (String.length a) (a ++ s) = a.
Proof.
  induction a as [|c a IH]; [destruct s; reflexivity|].
  cbn. rewrite IH. reflexivity.
Qed.

Lemma length_app_string a s :
  String.length (a ++ s) = (String.length a + String.length s)%nat.
Proof. induction a as [|c a IH]; [reflexivity|]. cbn. rewrite IH. reflexivity. Qed.

(** [strings.TrimSuffix] removes a suffix that is there. *)
Lemma TrimSuffix_app a suffix : Go.TrimSuffix (a ++ suffix) suffix = a.
Proof.
  unfold Go.TrimSuffix, Go.HasSuffix. rewrite length_app_string.
  replace (String.length a + String.length suffix - String.length suffix)%nat
    with (String.length a) by lia.
  rewrite substring_app_suffix, String.eqb_refl, substring_app_prefix.
  replace (Nat.leb (String.length suffix)
             (String.length a + String.length suffix)) with true;
    [reflexivity|].
  symmetry. apply Nat.leb_le. lia.
Qed.

(** X10. The server-address header is compared with the stripped address:
    for a service whose address is [a.svc.cluster.local] with [a] not
    empty, a server-address header [a] passes the address check, while a
    header that spells the full address does not: [InjectFault] then
    resumes at once. *)
Theorem address_is_matched_without_suffix (params : InjectFaultParams)
    (st : Store) (a : string) :
  a <> "" ->
  Address params = a ++ ".svc.cluster.local" ->
  (GetHeaderFn params FaultServerAddressHeader = a ->
   addressPasses params = true)
  /\ (GetHeaderFn params FaultServerAddressHeader = Address params ->
      InjectFault params st =
      (Ret (ResumeFn params), st,
       [EvGetHeader FaultServerAddressHeader; EvResume])).
Proof.
  intros NE EA. split.
  - intros EH. unfold addressPasses. cbv zeta.
    rewrite EH, EA, TrimSuffix_app, String.eqb_refl.
    apply String.eqb_neq in NE. rewrite NE. reflexivity.
  - intros EH. apply InjectFault_address_fails.
    unfold addressPasses. cbv zeta.
    rewrite EH, EA, TrimSuffix_app.
    replace (a ++ ".svc.cluster.local" =? a)%string with false;
      [apply negb_false_iff, orb_true_r|].
    symmetry. apply String.eqb_neq. intros C.
    apply (f_equal String.length) in C. rewrite length_app_string in C.
    cbn in C. lia.
Qed.

(** X11. [ResponseFn] is only called within the range: a run of
    [InjectFault] that calls [ResponseFn] has passed the address and the
    method check, its abort-code header holds an integer of
    [[AbortCodeMin, AbortCodeMax]], its abort percentage check selects, and
    the result is that of [ResponseFn] at this code and the abort-message
    header; with [AbortCodeMax < AbortCodeMin] no run calls
    [ResponseFn]. *)
Theorem responds_only_within_range (params : InjectFaultParams) (st : Store) :
  (responded (trace (InjectFault params st)) = true ->
   exists code,
     Go.Atoi (GetHeaderFn params FaultAbortCodeHeader) = (code, None)
     /\ AbortCodeMin params <= code <= AbortCodeMax params
     /\ addressPasses params = true
     /\ methodPasses params = true
     /\ selects FaultAbortPercentageHeader params st = true
     /\ InjectFault params st =
        (Ret (ResponseFn params code
                (GetHeaderFn params FaultAbortMessageHeader)), st,
         trace (InjectFault params st)))
  /\ (AbortCodeMax params < AbortCodeMin params ->
      responded (trace (InjectFault params st)) = false).
Proof.
  split.
  - intros R.
    decision_cases params st; try discriminate;
      eexists; repeat split; try eassumption; lia.
  - intros Emp.
    decision_cases params st; try reflexivity; lia.
Qed.

End Properties.



(** ** Concrete runs *)

Import Sample.

(** C1. In the production configuration ([RandInt] nil) a request with a
    well-formed percentage header makes [InjectFault] panic with a nil
    pointer dereference, right after the call of [rand.Intn]: neither
    [ResumeFn] nor [ResponseFn] is called.  The first run has a delay
    percentage, the second an abort percentage. *)
Theorem InjectFault_panics_in_production (st : Store) :
  run delayHalf None st =
    (Panic nilDeref, afterDraw st,
     [EvGetHeader addressHeader; EvGetHeader methodHeader;
      EvGetHeader delayMsHeader; EvGetHeader delayPercentageHeader;
      EvRandIntn 100])
  /\ run abortHalf None st =
    (Panic nilDeref, afterDraw st,
     [EvGetHeader addressHeader; EvGetHeader methodHeader;
      EvGetHeader delayMsHeader; EvGetHeader abortCodeHeader;
      EvGetHeader abortPercentageHeader; EvRandIntn 100]).
Proof.
  split.
  - apply (delay_check_panics_on_nil addressHeader methodHeader delayMsHeader
             delayPercentageHeader abortCodeHeader abortMessageHeader
             abortPercentageHeader Result (call delayHalf None) st 50);
      try reflexivity; [discriminate | lia].
  - apply (abort_check_panics_on_nil addressHeader methodHeader delayMsHeader
             delayPercentageHeader abortCodeHeader abortMessageHeader
             abortPercentageHeader Result (call abortHalf None) st 50);
      try reflexivity; [discriminate | lia].
Qed.

(** C2. Without an injected draw nothing is cached: [getRandInt] on the nil
    pointer draws from [rand.Intn] and panics on the assignment, leaving
    every cell of the heap as it was; a decision with a delay percentage and
    an abort percentage ends at the first check, and the abort percentage is
    never looked up. *)
Theorem draw_is_not_cached_in_production (st : Store) :
  getRandInt (mkRandSingleton None) st =
    (Panic nilDeref, afterDraw st, [EvRandIntn 100])
  /\ heap (afterDraw st) = heap st
  /\ outcome (run delayAndAbort None st) = Panic nilDeref
  /\ lookedUp abortPercentageHeader (trace (run delayAndAbort None st)) = false.
Proof. repeat split. Qed.

(** Witness of C3: the draw 42 against the percentage 50. *)
Lemma isSelected_iff_draw_below_percentage_witness :
  heap (storeWith 42) 0%nat = 42
  /\ 0 <= 42 < 100
  /\ isSelected delayPercentageHeader (headers delayHalf)
       (mkRandSingleton (Some 0%nat)) (storeWith 42) =
     (Ret (true, ""), storeWith 42, [EvGetHeader delayPercentageHeader])
  /\ isSelected abortPercentageHeader (headers delayHalf)
       (mkRandSingleton None) (storeWith 42) =
     (Ret (true, ""), storeWith 42, [EvGetHeader abortPercentageHeader]).
Proof.
  assert (R1 : 0 <= 42 < 100) by lia.
  assert (R2 : 0 <= 50 <= 100) by lia.
  split; [reflexivity|]. split; [exact R1|]. split.
  - exact (proj1 (proj1 (isSelected_iff_draw_below_percentage
                           delayPercentageHeader (headers delayHalf) 0%nat
                           (storeWith 42) 42 eq_refl R1)
                    50 eq_refl R2)).
  - exact (proj1 (proj2 (isSelected_iff_draw_below_percentage
                           abortPercentageHeader (headers delayHalf) 0%nat
                           (storeWith 42) 42 eq_refl R1)
                    eq_refl (mkRandSingleton None))).
Defined.

(** Witness of C4: a fault addressed to another service. *)
Lemma address_check_resumes_witness :
  headers otherServer addressHeader <> Go.TrimSuffix
    "testService.testNamespace.svc.cluster.local" ".svc.cluster.local"
  /\ run otherServer None (storeWith 0) =
     (Ret Resumed, storeWith 0, [EvGetHeader addressHeader; EvResume]).
Proof.
  split; [discriminate|].
  apply (address_check_resumes addressHeader methodHeader delayMsHeader
           delayPercentageHeader abortCodeHeader abortMessageHeader
           abortPercentageHeader Result (call otherServer None) (storeWith 0)).
  right. discriminate.
Defined.

(** Witness of C5: a fault for the method [put] on a call of [get], and a
    fault for any method. *)
Lemma method_check_witness :
  addressPasses addressHeader (call otherMethod None) = true
  /\ run otherMethod None (storeWith 0) =
     (Ret Resumed, storeWith 0,
      [EvGetHeader addressHeader; EvGetHeader methodHeader; EvResume])
  /\ trace (run anyMethod None (storeWith 0)) =
     ([EvGetHeader addressHeader; EvGetHeader methodHeader]
        ++ trace (delayPhase delayMsHeader delayPercentageHeader
                    abortCodeHeader abortMessageHeader abortPercentageHeader
                    (call anyMethod None) (storeWith 0)))%list.
Proof.
  split; [reflexivity|]. split.
  - apply (proj1 (method_check addressHeader methodHeader delayMsHeader
                    delayPercentageHeader abortCodeHeader abortMessageHeader
                    abortPercentageHeader Result (call otherMethod None)
                    (storeWith 0) eq_refl));
      discriminate.
  - exact (f_equal trace
             (proj2 (method_check addressHeader methodHeader delayMsHeader
                       delayPercentageHeader abortCodeHeader
                       abortMessageHeader abortPercentageHeader Result
                       (call anyMethod None) (storeWith 0) eq_refl)
                    eq_refl)).
Defined.

(** Witness of C6: abort code 503 with message [boom] and percentage 100,
    against the injected draw 99. *)
Lemma abort_end_to_end_witness :
  headersDistinct addressHeader methodHeader delayMsHeader
    delayPercentageHeader abortCodeHeader abortMessageHeader
    abortPercentageHeader = true
  /\ lookedUp abortPercentageHeader
       (trace (run abortBoom (Some 0%nat) (storeWith 99))) = true
  /\ selects abortPercentageHeader (call abortBoom (Some 0%nat))
       (storeWith 99) = true
  /\ outcome (run abortBoom (Some 0%nat) (storeWith 99)) =
     Ret (Responded 503 "boom")
  /\ resumed (trace (run abortBoom (Some 0%nat) (storeWith 99))) = false.
Proof.
  assert (R : 400 <= 503 <= 599) by lia.
  destruct (abort_end_to_end addressHeader methodHeader delayMsHeader
              delayPercentageHeader abortCodeHeader abortMessageHeader
              abortPercentageHeader Result (call abortBoom (Some 0%nat))
              (storeWith 99) 503 eq_refl eq_refl eq_refl eq_refl R
              eq_refl eq_refl) as (O & _ & Rs).
  split; [reflexivity|]. split; [reflexivity|]. split; [reflexivity|].
  split; [exact O | exact Rs].
Defined.

(** Witness of C7: abort code 600 against the range [[400, 599]]. *)
Lemma abort_code_out_of_range_resumes_witness :
  lookedUp abortPercentageHeader
    (trace (run abort600 None (storeWith 0))) = true
  /\ selects abortPercentageHeader (call abort600 None) (storeWith 0) = true
  /\ outcome (run abort600 None (storeWith 0)) = Ret Resumed
  /\ warned "faults_test: provided abort code 600 is outside of the valid range"
       (trace (run abort600 None (storeWith 0))) = true
  /\ responded (trace (run abort600 None (storeWith 0))) = false.
Proof.
  assert (R : 600 < 400 \/ 599 < 600) by (right; lia).
  destruct (abort_code_out_of_range_resumes addressHeader methodHeader
              delayMsHeader delayPercentageHeader abortCodeHeader
              abortMessageHeader abortPercentageHeader Result
              (call abort600 None) (storeWith 0) 600 eq_refl eq_refl R
              eq_refl eq_refl) as (O & W & Rs).
  split; [reflexivity|]. split; [reflexivity|].
  split; [exact O|]. split; [exact W | exact Rs].
Defined.

(** C8 as stated fails: the delay of 9223372036855 milliseconds is a valid
    non-negative [int], its delay percentage check selects and there is no
    abort code, but the product with [time.Millisecond] wraps around, and
    the one call of the sleep function has a negative duration. *)
Lemma delay_end_to_end_overflows :
  addressPasses addressHeader (call delayHuge None) = true
  /\ methodPasses methodHeader (call delayHuge None) = true
  /\ Go.Atoi (headers delayHuge delayMsHeader) = (9223372036855, None)
  /\ 0 <= 9223372036855
  /\ selects delayPercentageHeader (call delayHuge None) (storeWith 0) = true
  /\ headers delayHuge abortCodeHeader = ""
  /\ sleeps (trace (run delayHuge None (storeWith 0))) =
     [(time_Sleep, -9223372036854551616)]
  /\ sleeps (trace (run delayHuge None (storeWith 0))) <>
     [(time_Sleep, 9223372036855 * Go.Millisecond)].
Proof.
  repeat (split; [first [reflexivity | lia]|]). discriminate.
Qed.

(** Witness of C8: a delay of 10 milliseconds with percentage 100, against
    the injected draw 99. *)
Lemma delay_end_to_end_witness :
  Go.Atoi (headers delay10 delayMsHeader) = (10, None)
  /\ 10 * Go.Millisecond <= Go.maxInt
  /\ selects delayPercentageHeader (call delay10 (Some 0%nat))
       (storeWith 99) = true
  /\ sleeps (trace (run delay10 (Some 0%nat) (storeWith 99))) =
     [(time_Sleep, 10 * Go.Millisecond)]
  /\ outcome (run delay10 (Some 0%nat) (storeWith 99)) = Ret Resumed.
Proof.
  assert (N0 : 0 <= 10) by lia.
  assert (NU : 10 * Go.Millisecond <= Go.maxInt) by (vm_compute; discriminate).
  destruct (delay_end_to_end addressHeader methodHeader delayMsHeader
              delayPercentageHeader abortCodeHeader abortMessageHeader
              abortPercentageHeader Result (call delay10 (Some 0%nat))
              (storeWith 99) 10 eq_refl eq_refl eq_refl N0 NU eq_refl
              eq_refl) as (E & S).
  split; [reflexivity|]. split; [exact NU|]. split; [reflexivity|].
  split; [exact S|]. exact (f_equal outcome E).
Defined.

(** C10 as stated fails: the delay of -9223372036855 milliseconds is a
    valid negative [int] and its delay percentage check selects, but the
    product with [time.Millisecond] wraps around, and the sleep function is
    called with a positive duration. *)
Lemma negative_delay_overflows :
  addressPasses addressHeader (call delayMinusHuge None) = true
  /\ methodPasses methodHeader (call delayMinusHuge None) = true
  /\ Go.Atoi (headers delayMinusHuge delayMsHeader) = (-9223372036855, None)
  /\ -9223372036855 < 0
  /\ selects delayPercentageHeader (call delayMinusHuge None) (storeWith 0)
     = true
  /\ sleeps (trace (run delayMinusHuge None (storeWith 0))) =
     [(time_Sleep, 9223372036854551616)]
  /\ 0 < 9223372036854551616
  /\ sleeps (trace (run delayMinusHuge None (storeWith 0))) <>
     [(time_Sleep, -9223372036855 * Go.Millisecond)].
Proof.
  repeat (split; [first [reflexivity | lia]|]). discriminate.
Qed.

(** Witness of C10: a delay of -5 milliseconds. *)
Lemma negative_delay_is_slept_witness :
  Go.Atoi (headers delayMinus5 delayMsHeader) = (-5, None)
  /\ Go.minInt <= -5 * Go.Millisecond
  /\ selects delayPercentageHeader (call delayMinus5 None) (storeWith 0) = true
  /\ run delayMinus5 None (storeWith 0) =
     (Ret Resumed, storeWith 0,
      [EvGetHeader addressHeader; EvGetHeader methodHeader;
       EvGetHeader delayMsHeader; EvGetHeader delayPercentageHeader;
       EvSleep time_Sleep (-5000000);
       EvGetHeader abortCodeHeader; EvResume]).
Proof.
  assert (N0 : -5 < 0) by lia.
  assert (NL : Go.minInt <= -5 * Go.Millisecond) by (vm_compute; discriminate).
  destruct (negative_delay_is_slept addressHeader methodHeader delayMsHeader
              delayPercentageHeader abortCodeHeader abortMessageHeader
              abortPercentageHeader Result (call delayMinus5 None)
              (storeWith 0) (-5) eq_refl eq_refl eq_refl eq_refl N0 NL
              eq_refl)
    as (_ & E & _).
  split; [reflexivity|]. split; [exact NL|]. split; [reflexivity|].
  exact E.
Defined.

(** ** Concrete runs of the further properties *)

Local Abbreviation at_sample thm :=
  (thm addressHeader methodHeader delayMsHeader delayPercentageHeader
     abortCodeHeader abortMessageHeader abortPercentageHeader Result).

(** Witness of X1: a delay and an abort against the injected draw 49. *)
Lemma injected_draw_never_panics_witness :
  RandInt (call delayAndAbort (Some 0%nat)) = Some 0%nat
  /\ final (run delayAndAbort (Some 0%nat) (storeWith 49)) = storeWith 49
  /\ drew (trace (run delayAndAbort (Some 0%nat) (storeWith 49))) = false.
Proof.
  destruct (at_sample injected_draw_never_panics
              (call delayAndAbort (Some 0%nat)) (storeWith 49) 0%nat eq_refl)
    as (F & D & _).
  split; [reflexivity|]. split; [exact F | exact D].
Defined.

(** Witness of X2: an abort without percentage in production. *)
Lemma no_percentage_never_panics_witness :
  headers anyMethod delayPercentageHeader = ""
  /\ headers anyMethod abortPercentageHeader = ""
  /\ final (run anyMethod None (storeWith 0)) = storeWith 0
  /\ drew (trace (run anyMethod None (storeWith 0))) = false
  /\ exists r, outcome (run anyMethod None (storeWith 0)) = Ret r.
Proof.
  split; [reflexivity|]. split; [reflexivity|].
  exact (at_sample no_percentage_never_panics (call anyMethod None)
           (storeWith 0) eq_refl eq_refl).
Defined.

(** Witness of X5: the abort of [delayAndAbort] comes after its sleep. *)
Lemma abort_only_after_delay_witness :
  headers delayAndAbort delayMsHeader <> ""
  /\ responded (trace (run delayAndAbort (Some 0%nat) (storeWith 49))) = true
  /\ exists delay before after,
       Go.Atoi (headers delayAndAbort delayMsHeader) = (delay, None)
       /\ trace (run delayAndAbort (Some 0%nat) (storeWith 49)) =
          (before ++ EvSleep time_Sleep (Go.DurationMs delay) :: after)%list
       /\ responded before = false.
Proof.
  assert (NE : headers delayAndAbort delayMsHeader <> "") by discriminate.
  split; [exact NE|]. split; [reflexivity|].
  destruct (at_sample abort_only_after_delay
              (call delayAndAbort (Some 0%nat)) (storeWith 49) NE eq_refl)
    as (d & b & a & A & _ & E & R & _).
  exists d, b, a. split; [exact A|]. split; [exact E | exact R].
Defined.

(** Witness of X6: the draws 10, 50 and 90 against a delay of percentage
    80 and an abort of percentage 20. *)
Lemma one_roll_decides_both_witness :
  outcome (run delay80Abort20 (Some 0%nat) (storeWith 10)) =
    Ret (Responded 503 "")
  /\ sleeps (trace (run delay80Abort20 (Some 0%nat) (storeWith 50))) =
       [(time_Sleep, 10000000)]
  /\ outcome (run delay80Abort20 (Some 0%nat) (storeWith 50)) = Ret Resumed
  /\ trace (run delay80Abort20 (Some 0%nat) (storeWith 90)) =
       [EvGetHeader addressHeader; EvGetHeader methodHeader;
        EvGetHeader delayMsHeader; EvGetHeader delayPercentageHeader;
        EvWarn "faults_test: "; EvResume].
Proof.
  assert (Rd : 0 <= 80 <= 100) by lia.
  assert (Ra : 0 <= 20 <= 100) by lia.
  assert (Rc : 400 <= 503 <= 599) by lia.
  assert (L10d : 10 < 80) by lia. assert (L10a : 10 < 20) by lia.
  assert (L50d : 50 < 80) by lia. assert (L50a : 20 <= 50) by lia.
  assert (L90d : 80 <= 90) by lia.
  pose proof (fun draw =>
    at_sample one_roll_decides_both (call delay80Abort20 (Some 0%nat))
      (storeWith draw) 0%nat 10 80 503 20 eq_refl eq_refl eq_refl eq_refl
      eq_refl Rd eq_refl Rc eq_refl Ra) as H.
  split; [exact (f_equal outcome (proj1 (H 10) L10d L10a))|].
  split; [exact (f_equal (fun r => sleeps (trace r))
                   (proj1 (proj2 (H 50)) L50d L50a))|].
  split; [exact (f_equal outcome (proj1 (proj2 (H 50)) L50d L50a))|].
  exact (f_equal trace (proj2 (proj2 (H 90)) L90d)).
Defined.

(** Witness of X7: the delay [NaN] with an abort code 503. *)
Lemma invalid_delay_cancels_the_fault_witness :
  Go.Atoi (headers delayNaN delayMsHeader) = (0, Some Go.ErrSyntax)
  /\ selects delayPercentageHeader (call delayNaN None) (storeWith 0) = true
  /\ run delayNaN None (storeWith 0) =
     (Ret Resumed, storeWith 0,
      [EvGetHeader addressHeader; EvGetHeader methodHeader;
       EvGetHeader delayMsHeader; EvGetHeader delayPercentageHeader;
       EvWarn "faults_test: provided delay NaN is not a valid integer";
       EvResume]).
Proof.
  assert (NE : headers delayNaN delayMsHeader <> "") by discriminate.
  split; [reflexivity|]. split; [reflexivity|].
  exact (at_sample invalid_delay_cancels_the_fault (call delayNaN None)
           (storeWith 0) 0 Go.ErrSyntax eq_refl eq_refl NE eq_refl eq_refl).
Defined.

(** Witness of X8: the delay percentages [NaN] and 101 in production. *)
Lemma malformed_delay_percentage_resumes_witness :
  warnings (trace (run delayPercentageNaN None (storeWith 0))) =
    ["faults_test: provided delay percentage NaN is not a valid integer"]
  /\ outcome (run delayPercentageNaN None (storeWith 0)) = Ret Resumed
  /\ warnings (trace (run delayPercentage101 None (storeWith 0))) =
       ["faults_test: provided delay percentage 101 is outside the valid range of [0-100]"]
  /\ outcome (run delayPercentage101 None (storeWith 0)) = Ret Resumed.
Proof.
  assert (N1 : headers delayPercentageNaN delayMsHeader <> "") by discriminate.
  assert (N2 : headers delayPercentageNaN delayPercentageHeader <> "")
    by discriminate.
  assert (N3 : headers delayPercentage101 delayMsHeader <> "") by discriminate.
  assert (N4 : headers delayPercentage101 delayPercentageHeader <> "")
    by discriminate.
  assert (R : 101 < 0 \/ 100 < 101) by (right; lia).
  pose proof (proj1 (at_sample malformed_delay_percentage_resumes
                       (call delayPercentageNaN None) (storeWith 0)
                       eq_refl eq_refl N1 N2) 0 Go.ErrSyntax eq_refl) as H1.
  pose proof (proj2 (at_sample malformed_delay_percentage_resumes
                       (call delayPercentage101 None) (storeWith 0)
                       eq_refl eq_refl N3 N4) 101 eq_refl R) as H2.
  split; [exact (f_equal (fun r => warnings (trace r)) H1)|].
  split; [exact (f_equal outcome H1)|].
  split; [exact (f_equal (fun r => warnings (trace r)) H2)|].
  exact (f_equal outcome H2).
Defined.

(** Witness of X9: the abort percentage 101 in production. *)
Lemma malformed_abort_percentage_resumes_witness :
  Go.Atoi (headers abortPercentage101 abortPercentageHeader) = (101, None)
  /\ warnings (trace (run abortPercentage101 None (storeWith 0))) =
       ["faults_test: provided delay percentage 101 is outside the valid range of [0-100]"]
  /\ outcome (run abortPercentage101 None (storeWith 0)) = Ret Resumed.
Proof.
  assert (NE : headers abortPercentage101 abortCodeHeader <> "")
    by discriminate.
  assert (R : 101 < 0 \/ 100 < 101) by (right; lia).
  pose proof (at_sample malformed_abort_percentage_resumes
                (call abortPercentage101 None) (storeWith 0) 101
                eq_refl eq_refl eq_refl NE eq_refl R) as H.
  split; [reflexivity|].
  split; [exact (f_equal (fun r => warnings (trace r)) H)|].
  exact (f_equal outcome H).
Defined.

(** Witness of X10: the service [testService.testNamespace]. *)
Lemma address_is_matched_without_suffix_witness :
  Address (call anyMethod None) = self ++ ".svc.cluster.local"
  /\ addressPasses addressHeader (call anyMethod None) = true
  /\ run fullAddress None (storeWith 0) =
     (Ret Resumed, storeWith 0, [EvGetHeader addressHeader; EvResume]).
Proof.
  assert (NE : self <> "") by discriminate.
  split; [reflexivity|]. split.
  - exact (proj1 (at_sample address_is_matched_without_suffix
                    (call anyMethod None) (storeWith 0) self NE eq_refl)
             eq_refl).
  - exact (proj2 (at_sample address_is_matched_without_suffix
                    (call fullAddress None) (storeWith 0) self NE eq_refl)
             eq_refl).
Defined.

(** Witness of X11: the abort of [abortBoom], and the same headers under
    the empty range from 599 down to 400. *)
Lemma responds_only_within_range_witness :
  responded (trace (run abortBoom (Some 0%nat) (storeWith 99))) = true
  /\ (exists code,
        Go.Atoi (headers abortBoom abortCodeHeader) = (code, None)
        /\ 400 <= code <= 599)
  /\ responded
       (trace (InjectFault addressHeader methodHeader delayMsHeader
                 delayPercentageHeader abortCodeHeader abortMessageHeader
                 abortPercentageHeader
                 (mkParams "faults_test"
                    "testService.testNamespace.svc.cluster.local" "get"
                    599 400 (headers abortBoom) Resumed Responded
                    (Some 0%nat) None)
                 (storeWith 99))) = false.
Proof.
  assert (Emp : 400 < 599) by lia.
  split; [reflexivity|]. split.
  - destruct (proj1 (at_sample responds_only_within_range
                       (call abortBoom (Some 0%nat)) (storeWith 99))
                eq_refl) as (code & A & R & _).
    exists code. split; [exact A | exact R].
  - exact (proj2 (at_sample responds_only_within_range
                    (mkParams "faults_test"
                       "testService.testNamespace.svc.cluster.local" "get"
                       599 400 (headers abortBoom) Resumed Responded
                       (Some 0%nat) None)
                    (storeWith 99)) Emp).
Defined.

(** ** The matcher *)

Import Headers.

Lemma scan_found ca m ds d : scan ca m ds (Some d) = Some d.
Proof. induction ds as [|x ds IH]; [reflexivity | exact IH]. Qed.

Lemma scan_first ca m ds : scan ca m ds None = find (targets ca m) ds.
Proof.
  induction ds as [|x ds IH]; [reflexivity|].
  cbn [scan find]. destruct (targets ca m x); [apply scan_found | exact IH].
Qed.

Lemma find_app {A} (f : A -> bool) l1 l2 :
  find f (l1 ++ l2) =
  match find f l1 with
  | Some x => Some x
  | None => find f l2
  end.
Proof.
  induction l1 as [|x l1 IH]; [reflexivity|].
  cbn [app find]. destruct (f x); [reflexivity | exact IH].
Qed.

(** The directives and the errors of all the raw values, in order. *)
Lemma matchLoop_flat ca m lo hi vs found errs :
  matchLoop ca m lo hi vs found errs =
  (match found with
   | Some d => Some d
   | None => find (targets ca m) (flat_map (fun v => fst (Parse lo hi v)) vs)
   end,
   (errs ++ flat_map (fun v => snd (Parse lo hi v)) vs)%list).
Proof.
  revert found errs.
  induction vs as [|v vs IH]; intros found errs.
  - cbn. rewrite app_nil_r. destruct found; reflexivity.
  - cbn [matchLoop flat_map]. destruct (Parse lo hi v) as [ds es] eqn:P.
    rewrite IH. cbn [fst snd]. rewrite app_assoc. f_equal.
    destruct found as [d|].
    + rewrite scan_found. reflexivity.
    + rewrite scan_first, find_app. destruct (find (targets ca m) ds);
        reflexivity.
Qed.

Lemma find_first {A} (f : A -> bool) l x :
  find f l = Some x ->
  exists l1 l2, l = (l1 ++ x :: l2)%list /\ forallb (fun y => negb (f y)) l1 = true
                /\ f x = true.
Proof.
  induction l as [|y l IH]; [discriminate|].
  cbn [find]. destruct (f y) eqn:F.
  - intros E. inversion E. subst. exists [], l. repeat split. exact F.
  - intros E. destruct (IH E) as (l1 & l2 & -> & N & T).
    exists (y :: l1), l2. cbn. rewrite F, N. repeat split. exact T.
Qed.

(** C9. First-match ordering of the matcher: over the directives of all the
    raw values, taken in order of occurrence and, within a value, in
    encoding order, the match is the first directive whose address is the
    canonical address and whose method is empty or the requested one (no
    match when there is none), and every directive before it fails that
    test; the errors are those of all the values.  With the raw values
    [a=bar] and [a=baz, a=foo] and the canonical address [foo], the
    directives are three, the match is the third, and there is no error. *)
Theorem Match_is_first_match :
  (forall rawValues canonicalAddress requestedMethod abortCodeMin abortCodeMax,
      let directives :=
        flat_map (fun v => fst (Parse abortCodeMin abortCodeMax v)) rawValues in
      Match rawValues canonicalAddress requestedMethod abortCodeMin abortCodeMax
      = (find (targets canonicalAddress requestedMethod) directives,
         flat_map (fun v => snd (Parse abortCodeMin abortCodeMax v)) rawValues)
      /\ forall d,
          fst (Match rawValues canonicalAddress requestedMethod
                 abortCodeMin abortCodeMax) = Some d ->
          exists before after,
            directives = (before ++ d :: after)%list
            /\ forallb (fun x => negb (targets canonicalAddress
                                         requestedMethod x)) before = true
            /\ ServerAddress d = canonicalAddress
            /\ (ServerMethod d = "" \/ ServerMethod d = requestedMethod))
  /\ flat_map (fun v => fst (Parse 0 0 v)) ["a=bar"; "a=baz, a=foo"] =
     [mkDirective "bar" "" 0 100 (-1) "" 100;
      mkDirective "baz" "" 0 100 (-1) "" 100;
      mkDirective "foo" "" 0 100 (-1) "" 100]
  /\ Match ["a=bar"; "a=baz, a=foo"] "foo" "" 0 0 =
     (Some (mkDirective "foo" "" 0 100 (-1) "" 100), []).
Proof.
  split; [|split; reflexivity].
  intros vs ca m lo hi directives.
  assert (E : Match vs ca m lo hi =
              (find (targets ca m) directives,
               flat_map (fun v => snd (Parse lo hi v)) vs)).
  { unfold Match. rewrite matchLoop_flat. reflexivity. }
  split; [exact E|].
  intros d F. rewrite E in F. cbn [fst] in F.
  destruct (find_first _ _ _ F) as (l1 & l2 & L & N & T).
  exists l1, l2. split; [exact L|]. split; [exact N|].
  unfold targets in T. apply andb_true_iff in T. destruct T as [Ta Tm].
  split; [apply String.eqb_eq, Ta|].
  apply orb_true_iff in Tm. destruct Tm as [Tm|Tm]; apply String.eqb_eq in Tm.
  - left; exact Tm.
  - right; exact Tm.
Qed.


(** ** The thrift server middlewares *)

Section MiddlewareProperties.

Import thriftbp.

Variable Context : Type.
Variable Args : Type.
Variable header : Context -> string -> string * bool.
Variables HeaderDeadlineBudget HeaderUserAgent HeaderEdgeRequest : string.
Variable WithTimeout : Context -> Z -> Context.
Variable Quote : string -> string.
Variable stringifyErrorType : option error -> string.
Variable BoolString : bool -> string.
Variable baseplateCode : error -> option Z.
Variable ErrorCode_String : Z -> string.
Variable ecinterface_Get : EdgeContextImpl Context.

Local Abbreviation TProcessorFunction := (TProcessorFunction Context Args).
Local Abbreviation ExtractDeadlineBudget :=
  (ExtractDeadlineBudget (Args:=Args) header HeaderDeadlineBudget
     HeaderUserAgent WithTimeout).
Local Abbreviation AbandonCanceledRequests :=
  (AbandonCanceledRequests (Context:=Context) (Args:=Args)).
Local Abbreviation recoverPanik :=
  (recoverPanik (Context:=Context) (Args:=Args) Quote).
Local Abbreviation RecoverPanic :=
  (RecoverPanic (Context:=Context) (Args:=Args) Quote).
Local Abbreviation PrometheusServerMiddleware :=
  (PrometheusServerMiddleware (Context:=Context) (Args:=Args)
     stringifyErrorType BoolString baseplateCode ErrorCode_String).
Local Abbreviation InjectEdgeContext :=
  (InjectEdgeContext (Args:=Args) header HeaderEdgeRequest ecinterface_Get).

Implicit Types next : TProcessorFunction.
Implicit Types ctx : Context.
Implicit Types args : Args.

(** X12. A deadline budget that is missing, is not an integer, or is
    below 1 millisecond is ignored: [ExtractDeadlineBudget] then is the
    wrapped function itself, on the same context, with no timeout and no
    observation. *)
Theorem deadline_budget_ignored (name : string) next ctx args :
  snd (header ctx HeaderDeadlineBudget) = false
  \/ snd (ParseInt10 (fst (header ctx HeaderDeadlineBudget))) <> None
  \/ fst (ParseInt10 (fst (header ctx HeaderDeadlineBudget))) < 1 ->
  ExtractDeadlineBudget name next ctx args = next ctx args.
Proof.
  unfold thriftbp.ExtractDeadlineBudget.
  destruct (header ctx HeaderDeadlineBudget) as [s [|]]; cbn [fst snd];
    [|reflexivity].
  destruct (ParseInt10 s) as [v [e|]]; cbn [fst snd]; [reflexivity|].
  intros [H | [H | H]]; [discriminate | contradiction |].
  apply Z.leb_gt in H. rewrite H. reflexivity.
Qed.

(** The run of [ExtractDeadlineBudget] under a budget whose product with
    [time.Millisecond] does not overflow. *)
Lemma ExtractDeadlineBudget_applies (name s : string) (v : Z) next ctx args :
  header ctx HeaderDeadlineBudget = (s, true) ->
  ParseInt10 s = (v, None) ->
  1 <= v <= 9223372036854 ->
  ExtractDeadlineBudget name next ctx args =
  (fst (next (WithTimeout ctx (v * Go.Millisecond)) args),
   [EvObserveDeadlineBudget name
      (fst (header (WithTimeout ctx (v * Go.Millisecond)) HeaderUserAgent))
      (v * Go.Millisecond)]
     ++ snd (next (WithTimeout ctx (v * Go.Millisecond)) args)
     ++ [EvCancel (v * Go.Millisecond)])%list.
Proof.
  intros H P R. unfold thriftbp.ExtractDeadlineBudget. rewrite H, P.
  replace (1 <=? v) with true by (symmetry; apply Z.leb_le; lia).
  cbv zeta.
  replace (Go.DurationMs v) with (v * Go.Millisecond).
  - destruct (next _ args) as [c t]. reflexivity.
  - unfold Go.DurationMs, Go.wrap64, Go.Millisecond.
    rewrite Z.mod_small; lia.
Qed.

(** X13. A deadline budget of [v] milliseconds, for an integer [v] from 1
    up to 9223372036854, is applied: the wrapped function runs on the
    context with a timeout of exactly [v] milliseconds; the budget is
    observed once, under the endpoint and the client of the user-agent
    header, before it runs; when it is left, by a return or by a panic, the
    timeout is cancelled; and its completion is passed on as it is. *)
Theorem deadline_budget_applied (name s : string) (v : Z) next ctx args :
  header ctx HeaderDeadlineBudget = (s, true) ->
  ParseInt10 s = (v, None) ->
  1 <= v <= 9223372036854 ->
  ExtractDeadlineBudget name next ctx args =
  (fst (next (WithTimeout ctx (v * Go.Millisecond)) args),
   [EvObserveDeadlineBudget name
      (fst (header (WithTimeout ctx (v * Go.Millisecond)) HeaderUserAgent))
      (v * Go.Millisecond)]
     ++ snd (next (WithTimeout ctx (v * Go.Millisecond)) args)
     ++ [EvCancel (v * Go.Millisecond)])%list.
Proof. apply ExtractDeadlineBudget_applies. Qed.

(** X14. A larger deadline budget overflows: for an integer [v] from
    9223372036855 up to 18446744073709 the product with
    [time.Millisecond] wraps around, and the wrapped function runs on a
    context whose timeout is the negative duration [v * 1000000 - 2^64]. *)
Theorem deadline_budget_overflows (name s : string) (v : Z) next ctx args :
  header ctx HeaderDeadlineBudget = (s, true) ->
  ParseInt10 s = (v, None) ->
  9223372036855 <= v <= 18446744073709 ->
  v * 1000000 - 2 ^ 64 < 0
  /\ fst (ExtractDeadlineBudget name next ctx args) =
     fst (next (WithTimeout ctx (v * 1000000 - 2 ^ 64)) args)
  /\ cancels (snd (ExtractDeadlineBudget name next ctx args)) =
     (cancels (snd (next (WithTimeout ctx (v * 1000000 - 2 ^ 64)) args))
        ++ [v * 1000000 - 2 ^ 64])%list.
Proof.
  intros H P R. split; [lia|].
  unfold thriftbp.ExtractDeadlineBudget. rewrite H, P.
  replace (1 <=? v) with true by (symmetry; apply Z.leb_le; lia).
  cbv zeta.
  replace (Go.DurationMs v) with (v * 1000000 - 2 ^ 64).
  - destruct (next _ args) as [c t]. cbn [fst snd app cancels]. split;
      [reflexivity|].
    induction t as [|e t IH]; [reflexivity|].
    destruct e; cbn [app cancels]; rewrite ?IH; reflexivity.
  - unfold Go.DurationMs, Go.wrap64, Go.Millisecond.
    replace (v * 1000000 + 2 ^ 63) with (v * 1000000 - 2 ^ 63 + 1 * 2 ^ 64)
      by lia.
    rewrite Z.mod_add by lia. rewrite Z.mod_small; lia.
Qed.

Lemma WrapTException_abandon :
  WrapTException ErrAbandonRequest = wrappedTException ErrAbandonRequest.
Proof. reflexivity. Qed.



Lemma panicsCounted_app method t1 t2 :
  panicsCounted method (t1 ++ t2) =
  (panicsCounted method t1 + panicsCounted method t2)%nat.
Proof.
  induction t1 as [|e t1 IH]; [reflexivity|].
  destruct e; cbn [app panicsCounted]; rewrite ?IH; lia.
Qed.

(** X17. [recoverPanik] never panics.  A return of the wrapped function is
    passed on with its events; a panic becomes the return of [false] and
    of an error that is a [thrift.TException], after one log entry and one
    increment of the panic counter of the endpoint.  [RecoverPanic] is the
    same function. *)
Theorem recoverPanik_never_panics (name : string) next ctx args :
  RecoverPanic name next ctx args = recoverPanik name next ctx args
  /\ match next ctx args with
     | (Returns ok err, t) =>
         recoverPanik name next ctx args = (Returns ok err, t)
     | (Panics r, t) =>
         exists rErr,
           recoverPanik name next ctx args =
           (Returns false (Some (WrapTException rErr)),
            t ++ [EvLogPanic name rErr; EvPanicRecoverInc name])%list
           /\ isTException (WrapTException rErr) = true
           /\ panicsCounted name (snd (recoverPanik name next ctx args)) =
              S (panicsCounted name t)
           /\ match r with
              | panicError e => rErr = e
              | panicOther rendering =>
                  rErr = errorString ("panic in " ++ Quote name ++ ": "
                                        ++ rendering)
              end
     end.
Proof.
  split; [reflexivity|].
  unfold thriftbp.recoverPanik.
  destruct (next ctx args) as [[ok err | r] t]; [reflexivity|].
  eexists. split; [reflexivity|]. split; [|split].
  - unfold WrapTException.
    destruct r as [e | v]; [destruct e|]; reflexivity.
  - cbn [snd]. rewrite panicsCounted_app. cbn [panicsCounted].
    rewrite String.eqb_refl. lia.
  - destruct r; reflexivity.
Qed.

(** X18. Only the innermost [recoverPanik] sees a panic: around another
    [recoverPanik] the middleware changes nothing, so a panic is logged and
    counted once, under the inner name. *)
Theorem recoverPanik_outer_is_transparent (outer inner : string)
    next ctx args :
  recoverPanik outer (recoverPanik inner next) ctx args
  = recoverPanik inner next ctx args.
Proof.
  unfold thriftbp.recoverPanik.
  destruct (next ctx args) as [[ok err | r] t]; reflexivity.
Qed.

Lemma activeRequests_app method t1 t2 :
  activeRequests method (t1 ++ t2) =
  activeRequests method t1 + activeRequests method t2.
Proof.
  induction t1 as [|e t1 IH]; [reflexivity|].
  destruct e; cbn [app activeRequests]; rewrite ?IH; lia.
Qed.


(** X20. The gauge of active requests is balanced: over a call of
    [PrometheusServerMiddleware] the gauge of the method changes by what
    the wrapped function changes it, whether that returns or panics; the
    completion is passed on as it is. *)
Theorem active_requests_balanced (method : string) next ctx args :
  fst (PrometheusServerMiddleware method next ctx args) = fst (next ctx args)
  /\ activeRequests method
       (snd (PrometheusServerMiddleware method next ctx args))
     = activeRequests method (snd (next ctx args)).
Proof.
  unfold thriftbp.PrometheusServerMiddleware.
  destruct (next ctx args) as [c t]. cbn [fst snd]. split; [reflexivity|].
  rewrite !activeRequests_app. cbn [activeRequests].
  rewrite String.eqb_refl. lia.
Qed.

(** X21. Edge context injection: without the edge-request header
    [InjectEdgeContext] is the wrapped function itself and the
    implementation is not consulted.  With the header, the wrapped
    function runs on the context that the implementation returns, also when
    the implementation reports an error, which only adds a log entry; the
    completion is passed on.  A nil implementation is the one of
    [ecinterface.Get]. *)
Theorem edge_context_injection (impl : option (EdgeContextImpl Context))
    (name : string) next ctx args :
  (snd (header ctx HeaderEdgeRequest) = false ->
   InjectEdgeContext impl name next ctx args = next ctx args)
  /\ (forall h ctx' err,
        header ctx HeaderEdgeRequest = (h, true) ->
        match impl with
        | Some i => i
        | None => ecinterface_Get
        end ctx h = (ctx', err) ->
        InjectEdgeContext impl name next ctx args =
        (fst (next ctx' args),
         match err with
         | Some e =>
             [EvLogError ("Error while parsing EdgeRequestContext: "
                            ++ Error e)]
         | None => []
         end ++ snd (next ctx' args))%list).
Proof.
  unfold thriftbp.InjectEdgeContext, thriftbp.InitializeEdgeContext.
  cbv zeta. split.
  - destruct (header ctx HeaderEdgeRequest) as [h [|]]; cbn [snd];
      [discriminate|]. intros _.
    destruct (next ctx args) as [c t]. reflexivity.
  - intros h ctx' err H I. rewrite H, I.
    destruct err; destruct (next ctx' args) as [c t]; reflexivity.
Qed.


End MiddlewareProperties.

(** ** Concrete runs of the middlewares *)

Import ThriftSample.

Local Abbreviation deadline_at thm :=
  (thm Ctx unit header deadlineBudget userAgent WithTimeout).

(** Witness of X12: no budget, a budget that is not a number, and a budget
    of 0 milliseconds. *)
Lemma deadline_budget_ignored_witness :
  thriftbp.ExtractDeadlineBudget header deadlineBudget userAgent WithTimeout
    "get" succeeds noBudget tt = succeeds noBudget tt
  /\ thriftbp.ExtractDeadlineBudget header deadlineBudget userAgent
       WithTimeout "get" succeeds (withBudget "soon") tt
     = succeeds (withBudget "soon") tt
  /\ thriftbp.ExtractDeadlineBudget header deadlineBudget userAgent
       WithTimeout "get" succeeds (withBudget "0") tt
     = (thriftbp.Returns true None, [thriftbp.EvHandler ""]).
Proof.
  assert (Z0 : 0 < 1) by lia.
  split; [|split].
  - apply (deadline_at deadline_budget_ignored "get" succeeds noBudget tt).
    left. reflexivity.
  - apply (deadline_at deadline_budget_ignored "get" succeeds
             (withBudget "soon") tt).
    right; left. discriminate.
  - apply (deadline_at deadline_budget_ignored "get" succeeds
             (withBudget "0") tt).
    right; right. exact Z0.
Defined.

(** Witness of X13: a budget of 250 milliseconds. *)
Lemma deadline_budget_applied_witness :
  header (withBudget "250") deadlineBudget = ("250", true)
  /\ thriftbp.ParseInt10 "250" = (250, None)
  /\ thriftbp.ExtractDeadlineBudget header deadlineBudget userAgent
       WithTimeout "get" succeeds (withBudget "250") tt
     = (thriftbp.Returns true None,
        [thriftbp.EvObserveDeadlineBudget "get" "client" 250000000;
         thriftbp.EvHandler "250000000";
         thriftbp.EvCancel 250000000]).
Proof.
  assert (R : 1 <= 250 <= 9223372036854) by lia.
  split; [reflexivity|]. split; [reflexivity|].
  exact (deadline_at deadline_budget_applied "get" "250" 250 succeeds
           (withBudget "250") tt eq_refl eq_refl R).
Defined.

(** Witness of X14: a budget of 9223372036855 milliseconds. *)
Lemma deadline_budget_overflows_witness :
  thriftbp.ParseInt10 "9223372036855" = (9223372036855, None)
  /\ 9223372036855 * 1000000 - 2 ^ 64 = -9223372036854551616
  /\ thriftbp.cancels
       (snd (thriftbp.ExtractDeadlineBudget header deadlineBudget userAgent
               WithTimeout "get" succeeds (withBudget "9223372036855") tt))
     = [-9223372036854551616].
Proof.
  assert (R : 9223372036855 <= 9223372036855 <= 18446744073709) by lia.
  split; [reflexivity|]. split; [reflexivity|].
  exact (proj2 (proj2 (deadline_at deadline_budget_overflows "get"
                         "9223372036855" 9223372036855 succeeds
                         (withBudget "9223372036855") tt eq_refl eq_refl R))).
Defined.


(** Witness of X21: no edge-request header, and an implementation that
    rejects the header. *)
Lemma edge_context_injection_witness :
  thriftbp.InjectEdgeContext header edgeRequest accepting (Some rejecting)
    "get" succeeds noBudget tt = succeeds noBudget tt
  /\ rejecting withEdge "token" =
     (mkCtx [] [], Some (thriftbp.errorString "bad header"))
  /\ thriftbp.InjectEdgeContext header edgeRequest accepting (Some rejecting)
       "get" succeeds withEdge tt
     = (thriftbp.Returns true None,
        [thriftbp.EvLogError
           "Error while parsing EdgeRequestContext: bad header";
         thriftbp.EvHandler ""]).
Proof.
  split; [|split; [reflexivity|]].
  - exact (proj1 (edge_context_injection Ctx unit header edgeRequest
                    accepting (Some rejecting) "get" succeeds noBudget tt)
             eq_refl).
  - exact (proj2 (edge_context_injection Ctx unit header edgeRequest
                    accepting (Some rejecting) "get" succeeds withEdge tt)
             "token" (mkCtx [] [])
             (Some (thriftbp.errorString "bad header")) eq_refl eq_refl).
Defined.

